(** * gdown.download_folder: a shallow embedding and its verification

    The development follows [gdown/download_folder.py]:

    - Python values, exceptions and the [Result] of a pure computation;
    - the two module-level regular expressions, as scanners over strings;
    - the listing page: embedded payload, title, positional rows;
    - the local file system and [pathlib.Path.mkdir(parents=True, exist_ok=True)];
    - the effectful functions [get_folder_list], [get_directory_structure]
      and [download_folder], in a state-and-exception monad over a [World];
    - a synthetic site to run them on;
    - the notions the statements use, then the theorems, one group per
      function, and their instances on the synthetic site. *)

From Stdlib Require Import String Ascii ZArith List Bool Lia.
From stdpp Require Import base tactics option list gmap strings.

Set Default Proof Using "Type".
Set Warnings "-register-all".

(** ** Python values *)

(** The objects the module handles: what [json.loads] returns, and the
    dictionaries [get_folder_list] builds.  A [PDict] lists the items of a
    dictionary with string keys, in insertion order. *)
Inductive pyobj : Type :=
| PNone
| PBool (b : bool)
| PInt (z : Z)
| PFloat (repr : string)
| PStr (s : string)
| PList (items : list pyobj)
| PDict (items : list (string * pyobj)).

(** [type(o).__name__], as it appears in the messages of [TypeError]. *)
Definition type_name (o : pyobj) : string :=
  match o with
  | PNone => "NoneType"
  | PBool _ => "bool"
  | PInt _ => "int"
  | PFloat _ => "float"
  | PStr _ => "str"
  | PList _ => "list"
  | PDict _ => "dict"
  end.

(** [o is None] *)
Definition is_None (o : pyobj) : bool :=
  match o with PNone => true | _ => false end.

(** [o == s] for a [str] constant [s]: only an equal string compares equal. *)
Definition eq_str (o : pyobj) (s : string) : bool :=
  match o with PStr t => String.eqb t s | _ => false end.

(** A local path, [pathlib.Path], as its components with the innermost one
    first: [Path("out") / "root" / "sub"] is ["sub"; "root"; "out"].  The
    empty list is the anchor (a directory that always exists), and [parent]
    of the anchor is the anchor itself, as in pathlib. *)
Abbreviation Path := (list string).

Definition parent (p : Path) : Path := tail p.

(** ** Exceptions *)

Inductive exn : Type :=
| RuntimeError (msg : string)
| ValueError (msg : string)
| IndexError (msg : string)
| KeyError (key : pyobj)
| TypeError (msg : string)
| AttributeError (msg : string)
| RecursionError
| FileExistsError (p : Path)
| FileNotFoundError (p : Path)
| NotADirectoryError (p : Path)
| LibraryError (class msg : string).

(** The outcome of a computation that may raise. *)
Inductive Result (A : Type) : Type :=
| Ok (a : A)
| Raise (e : exn).
Arguments Ok {A} a.
Arguments Raise {A} e.

Module ResultMonad.
Definition bind {A B} (r : Result A) (k : A -> Result B) : Result B :=
  match r with
  | Ok a => k a
  | Raise e => Raise e
  end.

(** [[f(x) for x in l]]: stops at the first element on which [f] raises. *)
Fixpoint traverse {A B} (f : A -> Result B) (l : list A) : Result (list B) :=
  match l with
  | [] => Ok []
  | x :: rest =>
      bind (f x) (fun y => bind (traverse f rest) (fun ys => Ok (y :: ys)))
  end.
End ResultMonad.

Notation "'let?' x ':=' c 'in' k" := (ResultMonad.bind c (fun x => k))
  (at level 10, x pattern, c at level 100, k at level 200).

(** ** Strings *)

Definition quote : ascii := "'"%char.
Definition backslash : ascii := "\"%char.
Definition newline : ascii := "010"%char.
Definition space : ascii := " "%char.
Definition dquote : string := String "034"%char EmptyString.

(** [needle in hay] *)
Fixpoint str_contains (needle hay : string) : bool :=
  String.prefix needle hay ||
  match hay with
  | EmptyString => false
  | String _ rest => str_contains needle rest
  end.

(** [s[n:]] *)
Fixpoint str_from (n : nat) (s : string) : string :=
  match n, s with
  | O, _ => s
  | S n', String _ rest => str_from n' rest
  | S _, EmptyString => EmptyString
  end.

(** [left + right] where [left] is a [str]. *)
Definition str_add (left : string) (right : pyobj) : Result string :=
  match right with
  | PStr s => Ok (left +:+ s)
  | _ =>
      Raise (TypeError ("can only concatenate str (not " +:+ dquote +:+
                        type_name right +:+ dquote +:+ ") to str"))
  end.

(** ** Subscripting and iteration *)

(** [o[i]] for a non-negative integer constant [i]. *)
Definition getitem (o : pyobj) (i : nat) : Result pyobj :=
  match o with
  | PList l =>
      match nth_error l i with
      | Some v => Ok v
      | None => Raise (IndexError "list index out of range")
      end
  | PStr s =>
      match String.get i s with
      | Some c => Ok (PStr (String c EmptyString))
      | None => Raise (IndexError "string index out of range")
      end
  | PDict _ => Raise (KeyError (PInt (Z.of_nat i)))
  | _ => Raise (TypeError ("'" +:+ type_name o +:+ "' object is not subscriptable"))
  end.

Fixpoint dict_get (items : list (string * pyobj)) (key : string) : option pyobj :=
  match items with
  | [] => None
  | (k, v) :: rest => if String.eqb k key then Some v else dict_get rest key
  end.

(** [o[key]] for a string constant [key]. *)
Definition getkey (o : pyobj) (key : string) : Result pyobj :=
  match o with
  | PDict items =>
      match dict_get items key with
      | Some v => Ok v
      | None => Raise (KeyError (PStr key))
      end
  | PStr _ => Raise (TypeError "string indices must be integers")
  | PList _ => Raise (TypeError "list indices must be integers or slices, not str")
  | _ => Raise (TypeError ("'" +:+ type_name o +:+ "' object is not subscriptable"))
  end.

(** The elements [for x in o] runs over. *)
Definition iter (o : pyobj) : Result (list pyobj) :=
  match o with
  | PList l => Ok l
  | PStr s => Ok (map (fun c => PStr (String c EmptyString)) (list_ascii_of_string s))
  | PDict items => Ok (map (fun kv => PStr (fst kv)) items)
  | _ => Raise (TypeError ("'" +:+ type_name o +:+ "' object is not iterable"))
  end.

(** [previous_path / name]: one more component; only a [str] can be joined. *)
Definition path_div (p : Path) (name : pyobj) : Result Path :=
  match name with
  | PStr s => Ok (s :: p)
  | _ =>
      Raise (TypeError ("unsupported operand type(s) for /: 'PosixPath' and '" +:+
                        type_name name +:+ "'"))
  end.

(** ** The module's constants *)

Definition folders_url : string := "https://drive.google.com/drive/folders/".
Definition files_url : string := "https://drive.google.com/uc?id=".
Definition folder_type : string := "application/vnd.google-apps.folder".

(** ** [string_regex]

    The pattern is a single-quoted literal: a quote, then as many items as
    possible, each one either a character other than quote and backslash or
    a backslash followed by a character other than newline, then a quote.
    Group 1 is the text between the two quotes. *)

(** The text after an opening quote: the body of the literal up to the first
    quote that no backslash escapes.  The two alternatives of the group are
    told apart by their first character, so the repetition reads the body in
    one way only and backtracking never finds another match; [.] does not
    match a newline. *)
Fixpoint literal_body (s : string) : option string :=
  match s with
  | EmptyString => None
  | String c rest =>
      if Ascii.eqb c quote then Some EmptyString
      else if Ascii.eqb c backslash then
        match rest with
        | EmptyString => None
        | String d rest' =>
            if Ascii.eqb d newline then None
            else option_map (fun g => String c (String d g)) (literal_body rest')
        end
      else option_map (String c) (literal_body rest)
  end.

(** [[m.group(1) for m in string_regex.finditer(s)]]: matches are searched
    from left to right and do not overlap; [skip] counts the characters of
    [s] that still belong to the last match. *)
Fixpoint finditer_from (skip : nat) (s : string) : list string :=
  match s with
  | EmptyString => []
  | String c rest =>
      match skip with
      | S k => finditer_from k rest
      | O =>
          if Ascii.eqb c quote then
            match literal_body rest with
            | Some g => g :: finditer_from (S (String.length g)) rest
            | None => finditer_from 0 rest
            end
          else finditer_from 0 rest
      end
  end.

Definition finditer (s : string) : list string := finditer_from 0 s.

(** ** [folder_name_regex]

    The pattern is one or more characters other than the space, at the
    start of the text. *)

Fixpoint leading_token (s : string) : string :=
  match s with
  | EmptyString => EmptyString
  | String c rest =>
      if Ascii.eqb c space then EmptyString else String c (leading_token rest)
  end.

(** [folder_name_regex.match(title)]: [Some (match.group(0))] or [None]. *)
Definition folder_name_match (title : string) : option string :=
  match leading_token title with
  | EmptyString => None
  | token => Some token
  end.


(** ** The listing page *)

(** What [requests] hands back, and what [BeautifulSoup(text, "html.parser")]
    makes of it: [scripts] holds [script.decode_contents()] for each element
    of [select("script")], in document order; [title] holds
    [title.contents], or [None] when the page has no title element. *)
Record Response : Type := { status_code : Z; text : string }.
Record Soup : Type := { scripts : list string; title : option (list string) }.

Definition marker : string := "_DRIVE_ivd".

Definition StructureNotFound : exn :=
  RuntimeError "Didn't found _DRIVE_ivd script tag".
Definition PayloadNotFound : exn :=
  RuntimeError "Couldn't find the folder encoded JS string".

(** The loop over the script tags: the first script that contains the marker
    decides; its second string literal is the encoded array. *)
Fixpoint find_encoded_data (scripts : list string) : Result string :=
  match scripts with
  | [] => Raise StructureNotFound
  | inner_html :: rest =>
      if str_contains marker inner_html then
        match nth_error (finditer inner_html) 1 with
        | Some encoded_data => Ok encoded_data
        | None => Raise PayloadNotFound
        end
      else find_encoded_data rest
  end.

(** [folder_soup.title.contents[0]] *)
Definition title_text (folder_soup : Soup) : Result string :=
  match title folder_soup with
  | None => Raise (AttributeError "'NoneType' object has no attribute 'contents'")
  | Some [] => Raise (IndexError "list index out of range")
  | Some (t :: _) => Ok t
  end.

(** [[i[k] for i in folder_contents]] *)
Definition column (k : nat) (folder_contents : pyobj) : Result (list pyobj) :=
  let? rows := iter folder_contents in
  ResultMonad.traverse (fun i => getitem i k) rows.

(** The rows the loop of [get_folder_list] indexes by [file]: the id, the
    name and the type at each position of the three lists. *)
Definition zip3 (ids names types : list pyobj) : list (pyobj * pyobj * pyobj) :=
  combine (combine ids names) types.

(** The three list comprehensions, one after the other. *)
Definition parse_rows (folder_contents : pyobj)
  : Result (list (pyobj * pyobj * pyobj)) :=
  let? folder_file_list := column 0 folder_contents in
  let? folder_name_list := column 2 folder_contents in
  let? folder_type_list := column 3 folder_contents in
  Ok (zip3 folder_file_list folder_name_list folder_type_list).

Section Listing.
(** The two decoding steps are library code:
    [bytes(s, "utf-8").decode("unicode_escape")] and [json.loads]. *)
Variable unicode_escape : string -> Result string.
Variable json_loads : string -> Result pyobj.

(** The pure part of [get_folder_list], from the search for the script tag
    to the three lists: the folder's name and its rows. *)
Definition parse_listing (folder_soup : Soup)
  : Result (string * list (pyobj * pyobj * pyobj)) :=
  let? encoded_data := find_encoded_data (scripts folder_soup) in
  let? decoded := unicode_escape encoded_data in
  let? folder_arr := json_loads decoded in
  let? first := getitem folder_arr 0 in
  let folder_contents := if is_None first then PList [] else first in
  let? title := title_text folder_soup in
  let? file_name :=
    match folder_name_match title with
    | Some token => Ok token
    | None => Raise (ValueError "Folder name not parsed out in {title}")
    end in
  let? rows := parse_rows folder_contents in
  Ok (file_name, rows).
End Listing.

(** The dictionary of one entry. *)
Definition entry (file_name file_id file_type file_contents : pyobj) : pyobj :=
  PDict [("file_name", file_name); ("file_id", file_id);
         ("file_type", file_type); ("file_contents", file_contents)].

(** ** The local file system *)

Inductive node : Type := Dir | File (data : string).

Abbreviation FS := (gmap Path node).

(** What a path resolves to. *)
Inductive Stat : Type :=
| Found (n : node)
| ENOENT     (* no such file or directory *)
| ENOTDIR.   (* a component of the path prefix is not a directory *)

Fixpoint stat (fs : FS) (p : Path) : Stat :=
  match p with
  | [] => Found Dir
  | name :: dir =>
      match stat fs dir with
      | Found Dir =>
          match fs !! p with
          | Some n => Found n
          | None => ENOENT
          end
      | Found (File _) => ENOTDIR
      | ENOENT => ENOENT
      | ENOTDIR => ENOTDIR
      end
  end.

(** [p.is_dir()] *)
Definition is_dir (fs : FS) (p : Path) : bool :=
  match stat fs p with Found Dir => true | _ => false end.

(** [os.mkdir(p)] *)
Definition os_mkdir (p : Path) (fs : FS) : Result FS :=
  match stat fs p with
  | Found _ => Raise (FileExistsError p)
  | ENOTDIR => Raise (NotADirectoryError p)
  | ENOENT =>
      match stat fs (parent p) with
      | Found Dir => Ok (<[p := Dir]> fs)
      | _ => Raise (FileNotFoundError p)
      end
  end.

(** [p.mkdir(parents=False, exist_ok=exist_ok)]: pathlib tries [os.mkdir];
    without [parents] a missing parent is raised as it is, and any other
    [OSError] is dropped when [exist_ok] holds and [p] is a directory. *)
Definition mkdir_leaf (exist_ok : bool) (p : Path) (fs : FS) : Result unit * FS :=
  match os_mkdir p fs with
  | Ok fs' => (Ok tt, fs')
  | Raise (FileNotFoundError q) => (Raise (FileNotFoundError q), fs)
  | Raise e => if exist_ok && is_dir fs p then (Ok tt, fs) else (Raise e, fs)
  end.

(** [p.mkdir(parents=True, exist_ok=True)]: on a missing parent, the parent
    is made in the same way and [os.mkdir] is tried once more. *)
Fixpoint Path_mkdir (p : Path) (fs : FS) : Result unit * FS :=
  match os_mkdir p fs with
  | Ok fs' => (Ok tt, fs')
  | Raise (FileNotFoundError q) =>
      match p with
      | [] => (Raise (FileNotFoundError q), fs)
      | _ :: dir =>
          match Path_mkdir dir fs with
          | (Ok _, fs1) => mkdir_leaf true p fs1
          | (Raise e, fs1) => (Raise e, fs1)
          end
      end
  | Raise e => if is_dir fs p then (Ok tt, fs) else (Raise e, fs)
  end.

(** ** The world outside the module *)

(** What the module neither defines nor controls: the [requests] session
    [client] (its cookie jar and the site behind it), the HTML parser, the
    two decoders, the working directory and [gdown.download.download]. *)
Class Platform : Type := {
  Session : Type;
  Proxy : Type;
  Speed : Type;
  (** [client.get(url)] *)
  client_get : string -> Session -> Result Response * Session;
  (** [client.cookies.clear()] *)
  cookies_clear : Session -> Session;
  BeautifulSoup : string -> Soup;
  unicode_escape : string -> Result string;
  json_loads : string -> Result pyobj;
  (** [Path.cwd()] *)
  cwd : Path;
  (** [download(url, output, quiet, proxy, speed, use_cookies)] *)
  download : string -> Path -> bool -> Proxy -> Speed -> bool -> FS -> Result bool * FS;
}.

Section Model.
Context `{P : Platform}.

(** The calls that leave the process, in the order they are made. *)
Inductive Event : Type :=
| EvGet (url : string) (status : Result Z)
| EvCookiesClear
| EvMkdir (p : Path)
| EvDownload (url : string) (output : Path) (quiet : bool)
             (proxy : Proxy) (speed : Speed) (use_cookies : bool)
             (returned : Result bool).

Record World : Type := {
  client : Session;
  disk : FS;
  stdout : list (list pyobj);   (* the arguments of each [print] *)
  trace : list Event;
}.

(** A computation: it ends with a value or an exception, in a new world. *)
Definition M (A : Type) : Type := World -> Result A * World.

Definition ret {A} (a : A) : M A := fun w => (Ok a, w).

Definition raise {A} (e : exn) : M A := fun w => (Raise e, w).

Definition bind {A B} (m : M A) (k : A -> M B) : M B :=
  fun w =>
    match m w with
    | (Ok a, w') => k a w'
    | (Raise e, w') => (Raise e, w')
    end.

Definition lift {A} (r : Result A) : M A := fun w => (r, w).

Definition when (b : bool) (m : M unit) : M unit :=
  if b then m else ret tt.

Definition emit (ev : Event) (w : World) : World :=
  {| client := client w; disk := disk w; stdout := stdout w;
     trace := trace w ++ [ev] |}.

Definition print (args : list pyobj) : M unit :=
  fun w =>
    (Ok tt, {| client := client w; disk := disk w;
               stdout := stdout w ++ [args]; trace := trace w |}).

Definition get (url : string) : M Response :=
  fun w =>
    let '(r, s) := client_get url (client w) in
    let status := match r with Ok page => Ok (status_code page) | Raise e => Raise e end in
    (r, emit (EvGet url status)
          {| client := s; disk := disk w; stdout := stdout w; trace := trace w |}).

Definition clear_cookies : M unit :=
  fun w =>
    (Ok tt, emit EvCookiesClear
              {| client := cookies_clear (client w); disk := disk w;
                 stdout := stdout w; trace := trace w |}).

(** [file_path.mkdir(parents=True, exist_ok=True)] *)
Definition mkdir (file_path : Path) : M unit :=
  fun w =>
    let '(r, fs) := Path_mkdir file_path (disk w) in
    (r, emit (EvMkdir file_path)
          {| client := client w; disk := fs; stdout := stdout w; trace := trace w |}).

Definition fetch (url : string) (output : Path) (quiet : bool)
           (proxy : Proxy) (speed : Speed) (use_cookies : bool) : M bool :=
  fun w =>
    let '(r, fs) := download url output quiet proxy speed use_cookies (disk w) in
    (r, emit (EvDownload url output quiet proxy speed use_cookies r)
          {| client := client w; disk := fs; stdout := stdout w; trace := trace w |}).

Notation "'let!' x ':=' c 'in' k" := (bind c (fun x => k))
  (at level 10, x pattern, c at level 100, k at level 200).
Notation "c ';;' k" := (bind c (fun _ => k))
  (at level 100, k at level 200, right associativity).

(** ** [get_folder_list] *)

(** The loop over the rows.  [recurse] is the recursive call on a folder's
    URL; [return_code] and [file_contents] are the loop's two variables, the
    latter being [folder_list["file_contents"]]. *)
Fixpoint for_rows (recurse : string -> M (bool * pyobj)) (quiet : bool)
         (file_name file_id : pyobj) (return_code : bool)
         (file_contents : list pyobj) (rows : list (pyobj * pyobj * pyobj))
  : M (bool * pyobj) :=
  match rows with
  | [] =>
      ret (return_code,
           entry file_name file_id (PStr folder_type) (PList file_contents))
  | (row_id, row_name, row_type) :: rest =>
      if negb (eq_str row_type folder_type) then
        when (negb quiet) (print [PStr "Processing file"; row_id; row_name]) ;;
        let file_contents :=
          file_contents ++ [entry row_name row_id row_type PNone] in
        if negb return_code then ret (return_code, PNone)
        else for_rows recurse quiet file_name file_id return_code file_contents rest
      else
        when (negb quiet) (print [PStr "Retrieving folder"; row_id; row_name]) ;;
        let! url := lift (str_add folders_url row_id) in
        let! (return_code, folder_structure) := recurse url in
        if negb return_code then ret (return_code, PNone)
        else for_rows recurse quiet file_name file_id return_code
                      (file_contents ++ [folder_structure]) rest
  end.

(** [depth] is the number of frames the interpreter still grants the
    recursion: at zero the call raises [RecursionError]. *)
Fixpoint get_folder_list (depth : nat) (folder : string)
         (quiet use_cookies : bool) : M (bool * pyobj) :=
  match depth with
  | O => raise RecursionError
  | S depth =>
      let return_code := true in
      let! folder_page := get folder in
      if negb (status_code folder_page =? 200)%Z then ret (false, PNone)
      else
        let folder_soup := BeautifulSoup (text folder_page) in
        when (negb use_cookies) clear_cookies ;;
        let! (file_name, rows) :=
          lift (parse_listing unicode_escape json_loads folder_soup) in
        for_rows (fun url => get_folder_list depth url quiet use_cookies) quiet
                 (PStr file_name) (PStr (str_from 39 folder)) return_code [] rows
  end.

(** ** [get_directory_structure] *)

(** The loop over [directory["file_contents"]]; [recurse] is the recursive
    call on a folder entry. *)
Fixpoint for_contents (recurse : pyobj -> Path -> Result (list (pyobj * Path)))
         (previous_path : Path) (directory_structure : list (pyobj * Path))
         (files : list pyobj) : Result (list (pyobj * Path)) :=
  match files with
  | [] => Ok directory_structure
  | file :: rest =>
      let? file_type := getkey file "file_type" in
      if eq_str file_type folder_type then
        let? name := getkey file "file_name" in
        let? path := path_div previous_path name in
        let directory_structure := directory_structure ++ [(PNone, path)] in
        let? name := getkey file "file_name" in
        let? path := path_div previous_path name in
        let? inner := recurse file path in
        for_contents recurse previous_path (directory_structure ++ inner) rest
      else
        let? contents := getkey file "file_contents" in
        if is_None contents then
          let? file_id := getkey file "file_id" in
          let? name := getkey file "file_name" in
          let? path := path_div previous_path name in
          for_contents recurse previous_path
                       (directory_structure ++ [(file_id, path)]) rest
        else for_contents recurse previous_path directory_structure rest
  end.

Fixpoint get_directory_structure (depth : nat) (directory : pyobj)
         (previous_path : Path) : Result (list (pyobj * Path)) :=
  match depth with
  | O => Raise RecursionError
  | S depth =>
      let? contents := getkey directory "file_contents" in
      let? files := iter contents in
      for_contents (get_directory_structure depth) previous_path [] files
  end.

(** ** [download_folder] *)

(** How one round of the last loop ends. *)
Inductive Flow : Type :=
| Continue (return_code : bool)
| Return (return_code : bool).

(** One round of the loop over [directory_structure]. *)
Definition download_entry (quiet : bool) (proxy : Proxy) (speed : Speed)
           (use_cookies : bool) (return_code : bool) (item : pyobj * Path)
  : M Flow :=
  let '(file_id, file_path) := item in
  if is_None file_id then
    mkdir file_path ;;
    ret (Continue return_code)
  else
    let! url := lift (str_add files_url file_id) in
    let! return_code := fetch url file_path quiet proxy speed use_cookies in
    if negb return_code then
      when (negb quiet) (print [PStr "Download ended unsuccessfully"]) ;;
      ret (Return return_code)
    else ret (Continue return_code).

Fixpoint for_files (quiet : bool) (proxy : Proxy) (speed : Speed)
         (use_cookies : bool) (return_code : bool)
         (directory_structure : list (pyobj * Path)) : M bool :=
  match directory_structure with
  | [] =>
      when (return_code && negb quiet) (print [PStr "Download completed"]) ;;
      ret return_code
  | item :: rest =>
      let! flow := download_entry quiet proxy speed use_cookies return_code item in
      match flow with
      | Continue return_code =>
          for_files quiet proxy speed use_cookies return_code rest
      | Return return_code => ret return_code
      end
  end.

(** The function from the folder list on: the directory structure is
    computed and then run. *)
Definition download_listed (depth : nat) (output : option Path) (quiet : bool)
           (proxy : Proxy) (speed : Speed) (use_cookies : bool)
           (listed : bool * pyobj) : M bool :=
  let '(return_code, folder_list) := listed in
  if negb return_code then ret return_code
  else
    when (negb quiet)
         (print [PStr "Retrieving folder list completed"] ;;
          print [PStr "Building directory structure"]) ;;
    let output := match output with None => cwd | Some o => o end in
    let! name := lift (getkey folder_list "file_name") in
    let! root := lift (path_div output name) in
    let! directory_structure :=
      lift (get_directory_structure depth folder_list root) in
    when (negb quiet) (print [PStr "Building directory structure completed"]) ;;
    for_files quiet proxy speed use_cookies return_code directory_structure.

Definition download_folder (depth : nat) (folder : string) (output : option Path)
           (quiet : bool) (proxy : Proxy) (speed : Speed) (use_cookies : bool)
  : M bool :=
  when (negb quiet) (print [PStr "Retrieving folder list"]) ;;
  let! listed := get_folder_list depth folder quiet false in
  download_listed depth output quiet proxy speed use_cookies listed.

End Model.

Notation "'let!' x ':=' c 'in' k" := (bind c (fun x => k))
  (at level 10, x pattern, c at level 100, k at level 200).
Notation "c ';;' k" := (bind c (fun _ => k))
  (at level 100, k at level 200, right associativity).

(** ** A synthetic site *)

Module Fixture.
(** A root folder [root] holding the subfolder [sub] (files [fileA] and
    [fileB]) and the file [fileC]; the folder [empty], whose listing has a
    null first element; the folder [short], whose second row has two
    elements; the folder [broken], whose subfolder cannot be fetched. *)
Definition row (id name type : string) : pyobj :=
  PList [PStr id; PNone; PStr name; PStr type].

Definition payload (encoded : string) : Result pyobj :=
  if String.eqb encoded "ROOT" then
    Ok (PList [PList [row "idSub" "sub" folder_type; row "idC" "fileC" "text/plain"];
               PNone; PInt 1])
  else if String.eqb encoded "SUB" then
    Ok (PList [PList [row "idA" "fileA" "image/png"; row "idB" "fileB" "text/plain"]])
  else if String.eqb encoded "EMPTY" then Ok (PList [PNone; PInt 0])
  else if String.eqb encoded "SHORT" then
    Ok (PList [PList [row "idC" "fileC" "text/plain"; PList [PStr "idX"; PNone]]])
  else if String.eqb encoded "BROKEN" then
    Ok (PList [PList [row "idC" "fileC" "text/plain";
                      row "idGone" "gone" folder_type;
                      row "idA" "fileA" "image/png"]])
  else Raise (LibraryError "JSONDecodeError" "Expecting value").

Definition page (name encoded : string) : string :=
  name +:+ " - Google Drive|window['_DRIVE_ivd'] = '" +:+ encoded +:+ "';".

(** The toy parser reads a page of the form [title|script]. *)
Fixpoint split_bar (s : string) : string * string :=
  match s with
  | EmptyString => (EmptyString, EmptyString)
  | String c rest =>
      if Ascii.eqb c "|"%char then (EmptyString, rest)
      else let '(a, b) := split_bar rest in (String c a, b)
  end.

Definition site (url : string) : Response :=
  if String.eqb url (folders_url +:+ "idRoot") then
    {| status_code := 200; text := page "root" "ROOT" |}
  else if String.eqb url (folders_url +:+ "idSub") then
    {| status_code := 200; text := page "sub" "SUB" |}
  else if String.eqb url (folders_url +:+ "idEmpty") then
    {| status_code := 200; text := page "empty" "EMPTY" |}
  else if String.eqb url (folders_url +:+ "idShort") then
    {| status_code := 200; text := page "short" "SHORT" |}
  else if String.eqb url (folders_url +:+ "idBroken") then
    {| status_code := 200; text := page "broken" "BROKEN" |}
  else {| status_code := 404; text := "Not Found" |}.

(** The session is its cookie jar: every response sets one cookie.  The
    download writes the URL into the file, and fails for the id [idB]
    when cookies are off. *)
#[export] Instance platform : Platform := {|
  Session := list string;
  Proxy := option string;
  Speed := option Z;
  client_get url jar := (Ok (site url), "NID" :: jar);
  cookies_clear _ := [];
  BeautifulSoup text :=
    let '(t, script) := split_bar text in
    {| scripts := ["var a = 'x';"; script]; title := Some [t] |};
  unicode_escape s := Ok s;
  json_loads := payload;
  cwd := ["work"];
  download url output quiet proxy speed use_cookies fs :=
    if String.eqb url (files_url +:+ "idB") && negb use_cookies then (Ok false, fs)
    else (Ok true, <[output := File url]> fs);
|}.

Definition w0 : World :=
  {| client := []; disk := ∅; stdout := []; trace := [] |}.

Definition root_url : string := folders_url +:+ "idRoot".
Definition empty_url : string := folders_url +:+ "idEmpty".
Definition broken_url : string := folders_url +:+ "idBroken".

Definition fileA : pyobj := entry (PStr "fileA") (PStr "idA") (PStr "image/png") PNone.
Definition fileB : pyobj := entry (PStr "fileB") (PStr "idB") (PStr "text/plain") PNone.
Definition fileC : pyobj := entry (PStr "fileC") (PStr "idC") (PStr "text/plain") PNone.
Definition sub_tree : pyobj :=
  entry (PStr "sub") (PStr "idSub") (PStr folder_type) (PList [fileA; fileB]).
Definition root_tree : pyobj :=
  entry (PStr "root") (PStr "idRoot") (PStr folder_type) (PList [sub_tree; fileC]).

(** The directory structure of [root_tree] under [work/root]. *)
Definition root_plan : list (pyobj * Path) :=
  [(PNone, ["sub"; "root"; "work"]);
   (PStr "idA", ["fileA"; "sub"; "root"; "work"]);
   (PStr "idB", ["fileB"; "sub"; "root"; "work"]);
   (PStr "idC", ["fileC"; "root"; "work"])].
End Fixture.


(** * The notions the statements use *)

(** The text of a script tag does not contain the marker. *)
Definition no_marker (inner_html : string) : Prop :=
  str_contains marker inner_html = false.

(** The script tag the loop stops at: the first one with the marker. *)
Definition marker_script (scripts : list string) (s : string) : Prop :=
  exists before after,
    scripts = before ++ s :: after /\
    Forall no_marker before /\ str_contains marker s = true.

(** A row that lacks one of the positions 0, 2 and 3: an array of fewer
    than four elements. *)
Definition short_row (row : pyobj) : Prop :=
  exists items, row = PList items /\ length items < 4.

Definition is_array (row : pyobj) : Prop := exists items, row = PList items.

(** The first short row of [rows] is at index [i]. *)
Definition offending (rows : list pyobj) (i : nat) : Prop :=
  exists row, nth_error rows i = Some row /\ short_row row /\
              Forall (fun r => ~ short_row r) (firstn i rows).

(** The claim C5 as the specification words it: the error raised for a
    short row tells the index of the first such row. *)
Definition error_tells_row_index : Prop :=
  exists index_of : exn -> nat,
    forall rows i, offending rows i ->
      exists e, parse_rows (PList rows) = Raise e /\ index_of e = i.

Section Vocabulary.
Context `{P : Platform}.

(** The array the page decodes to, and the name its title gives. *)
Definition decoded (folder_soup : Soup) (folder_arr : pyobj) : Prop :=
  exists encoded_data escaped,
    find_encoded_data (scripts folder_soup) = Ok encoded_data /\
    unicode_escape encoded_data = Ok escaped /\
    json_loads escaped = Ok folder_arr.

Definition titled (folder_soup : Soup) (file_name : string) : Prop :=
  exists t, title_text folder_soup = Ok t /\ folder_name_match t = Some file_name.

(** The rounds of [items] all go through: none raises, no download fails. *)
Fixpoint rounds (quiet : bool) (proxy : Proxy) (speed : Speed)
         (use_cookies : bool) (return_code : bool)
         (items : list (pyobj * Path)) (w : World) : option (bool * World) :=
  match items with
  | [] => Some (return_code, w)
  | item :: rest =>
      match download_entry quiet proxy speed use_cookies return_code item w with
      | (Ok (Continue return_code), w') =>
          rounds quiet proxy speed use_cookies return_code rest w'
      | _ => None
      end
  end.

(** The call a round that goes through makes. *)
Definition performs (quiet : bool) (proxy : Proxy) (speed : Speed)
           (use_cookies : bool) (item : pyobj * Path) (ev : Event) : Prop :=
  if is_None (fst item) then ev = EvMkdir (snd item)
  else exists url,
      str_add files_url (fst item) = Ok url /\
      ev = EvDownload url (snd item) quiet proxy speed use_cookies (Ok true).

(** A page fetch that did not answer 200. *)
Definition failed_fetch (ev : Event) : Prop :=
  match ev with
  | EvGet _ (Ok status) => status <> 200%Z
  | _ => False
  end.

(** What [get_folder_list] puts into a tree: a file entry has a type other
    than the folder type and no contents; a folder entry has the folder
    type and a list of such entries. *)
Inductive resolved : pyobj -> Prop :=
| resolved_file file_name file_id file_type :
    eq_str file_type folder_type = false ->
    resolved (entry file_name file_id file_type PNone)
| resolved_folder file_name file_id children :
    Forall resolved children ->
    resolved (entry (PStr file_name) (PStr file_id) (PStr folder_type)
                    (PList children)).

(** A run from [w] to [snd out]: the events it added, and what its outcome
    tells about them.  [good] is what a returned tree satisfies. *)
Definition listed (good : pyobj -> Prop) (w : World)
           (out : Result (bool * pyobj) * World) : Prop :=
  exists evs,
    trace (snd out) = trace w ++ evs /\
    match fst out with
    | Ok (true, folder_list) => ~ Exists failed_fetch evs /\ good folder_list
    | Ok (false, folder_list) => folder_list = PNone /\ Exists failed_fetch evs
    | Raise _ => ~ Exists failed_fetch evs
    end.

Definition folder_of (file_name file_id : pyobj) (folder_list : pyobj) : Prop :=
  exists children,
    folder_list = entry file_name file_id (PStr folder_type) (PList children) /\
    Forall resolved children.

(** The dictionary [get_folder_list] returns for the URL [folder]: all
    four keys are set, the name and the id are strings, the id is the URL
    from its 40th character on, the type is the folder type and the
    contents are a list. *)
Definition folder_dict (folder : string) (folder_list : pyobj) : Prop :=
  exists file_name children,
    folder_list = entry (PStr file_name) (PStr (str_from 39 folder))
                        (PStr folder_type) (PList children) /\
    Forall resolved children.

(** The kind of a node, and the nodes of a tree. *)
Inductive Kind : Type := FOLDER | FILE.

Definition kind_of (n : pyobj) : Result Kind :=
  let? file_type := getkey n "file_type" in
  Ok (if eq_str file_type folder_type then FOLDER else FILE).

Inductive node_of : pyobj -> pyobj -> Prop :=
| node_root tree : node_of tree tree
| node_descendant tree children child n :
    getkey tree "file_contents" = Ok (PList children) ->
    In child children -> node_of child n -> node_of tree n.

Definition kind_invariant (n : pyobj) : Prop :=
  match kind_of n with
  | Ok FOLDER => exists children, getkey n "file_contents" = Ok (PList children)
  | Ok FILE => getkey n "file_contents" = Ok PNone
  | Raise _ => False
  end.

(** The calls of the last loop: directory creations, and downloads that
    were given [use_cookies]. *)
Definition file_event (use_cookies : bool) (ev : Event) : Prop :=
  match ev with
  | EvMkdir _ => True
  | EvDownload _ _ _ _ _ c _ => c = use_cookies
  | _ => False
  end.

(** The part of [download_folder] that comes before the last loop, with
    the return code and the directory structure the loop starts from; a
    failed listing leaves the loop nothing to do. *)
Definition plan_of (depth : nat) (folder : string) (output : option Path)
           (quiet : bool) : M (bool * list (pyobj * Path)) :=
  when (negb quiet) (print [PStr "Retrieving folder list"]) ;;
  let! (return_code, folder_list) := get_folder_list depth folder quiet false in
  if negb return_code then ret (return_code, [])
  else
    when (negb quiet)
         (print [PStr "Retrieving folder list completed"] ;;
          print [PStr "Building directory structure"]) ;;
    let output := match output with None => cwd | Some o => o end in
    let! name := lift (getkey folder_list "file_name") in
    let! root := lift (path_div output name) in
    let! directory_structure :=
      lift (get_directory_structure depth folder_list root) in
    when (negb quiet) (print [PStr "Building directory structure completed"]) ;;
    ret (return_code, directory_structure).

(** The site answers the fetch of [folder], made in session [s], with a
    page that parses to the name [file_name] and to [rows], and leaves the
    session at [s']. *)
Definition serves (folder : string) (s : Session) (file_name : string)
           (rows : list (pyobj * pyobj * pyobj)) (s' : Session) : Prop :=
  exists page,
    client_get folder s = (Ok page, s') /\
    status_code page = 200%Z /\
    parse_listing unicode_escape json_loads (BeautifulSoup (text page))
      = Ok (file_name, rows).

(** The world after a successful fetch of [folder]. *)
Definition fetched (folder : string) (use_cookies : bool) (s : Session)
           (w : World) : World :=
  let w1 :=
    emit (EvGet folder (Ok 200%Z))
         {| client := s; disk := disk w; stdout := stdout w; trace := trace w |} in
  if use_cookies then w1 else snd (clear_cookies w1).

(** The world after a [print] that [quiet] may silence. *)
Definition printed (quiet : bool) (args : list pyobj) (w : World) : World :=
  snd (when (negb quiet) (print args) w).

End Vocabulary.

Ltac break_match :=
  match goal with
  | |- context [match ?x with _ => _ end] => destruct x
  end.

(** * Further notions *)

Section FurtherVocabulary.
Context `{P : Platform}.

(** The calls [get_folder_list] may make: page fetches, and the clearing of
    the cookie jar when [use_cookies] is off. *)
Definition listing_event (use_cookies : bool) (ev : Event) : Prop :=
  match ev with
  | EvGet _ _ => True
  | EvCookiesClear => use_cookies = false
  | _ => False
  end.

(** Two worlds that differ at most in what was printed. *)
Definition same_but_stdout (w1 w2 : World) : Prop :=
  client w1 = client w2 /\ disk w1 = disk w2 /\ trace w1 = trace w2.

End FurtherVocabulary.

Section StepVocabulary.
Context `{P : Platform}.

(** Every run of [m] takes a world to one that [R] relates to it. *)
Definition respects (R : World -> World -> Prop) {A} (m : M A) : Prop :=
  forall w, R w (snd (m w)).

(** The calls a run of [download_folder] may make; a download is given the
    file URL of some id and the caller's four options as they are. *)
Definition run_event (quiet : bool) (proxy : Proxy) (speed : Speed)
           (use_cookies : bool) (ev : Event) : Prop :=
  match ev with
  | EvGet _ _ => True
  | EvCookiesClear => True
  | EvMkdir _ => True
  | EvDownload url _ q p s c _ =>
      (exists id, url = files_url +:+ id) /\
      q = quiet /\ p = proxy /\ s = speed /\ c = use_cookies
  end.

End StepVocabulary.

Section RunVocabulary.
Context `{P : Platform}.

(** Two computations that, from worlds differing at most in what was
    printed, end alike in such worlds. *)
Definition agree {A} (m1 m2 : M A) : Prop :=
  forall w1 w2,
    same_but_stdout w1 w2 ->
    fst (m1 w1) = fst (m2 w2) /\ same_but_stdout (snd (m1 w1)) (snd (m2 w2)).

(** What the outcome of [get_folder_list] tells about the events of the
    run: after a [False] the last event is a page fetch that did not answer
    200 and no earlier fetch failed; otherwise no fetch failed. *)
Definition fetch_outcome (evs : list Event) (r : Result (bool * pyobj)) : Prop :=
  match r with
  | Ok (false, _) =>
      exists pre url status,
        evs = pre ++ [EvGet url (Ok status)] /\ status <> 200%Z /\
        ~ Exists failed_fetch pre
  | _ => ~ Exists failed_fetch evs
  end.

Definition traced (w : World) (out : Result (bool * pyobj) * World) : Prop :=
  exists evs, trace (snd out) = trace w ++ evs /\ fetch_outcome evs (fst out).

(** The entry of [file_contents] a row gives: a file entry repeats the
    row's name, id and type; a folder entry keeps the row's id and type and
    holds a list. *)
Definition row_entry (row : pyobj * pyobj * pyobj) (c : pyobj) : Prop :=
  let '(row_id, row_name, row_type) := row in
  if eq_str row_type folder_type then
    exists file_name children,
      c = entry (PStr file_name) row_id row_type (PList children)
  else c = entry row_name row_id row_type PNone.

End RunVocabulary.

(** ** Trees *)

(** A tree of entries as [get_folder_list] builds them: a file entry holds
    the row's name, id and type as they were decoded; a folder entry holds
    the name and the id of its own listing, and its children. *)
Inductive Tree : Type :=
| TFile (file_name file_id file_type : pyobj)
| TFolder (file_name file_id : string) (children : list Tree).

(** The dictionary of a tree. *)
Fixpoint to_dict (t : Tree) : pyobj :=
  match t with
  | TFile file_name file_id file_type => entry file_name file_id file_type PNone
  | TFolder file_name file_id children =>
      entry (PStr file_name) (PStr file_id) (PStr folder_type)
            (PList (map to_dict children))
  end.

(** The number of folder levels of a tree. *)
Fixpoint height (t : Tree) : nat :=
  match t with
  | TFile _ _ _ => 0
  | TFolder _ _ children =>
      S (fold_right (fun c m => Nat.max (height c) m) 0 children)
  end.

(** The number of nodes of a tree. *)
Fixpoint nodes (t : Tree) : nat :=
  match t with
  | TFile _ _ _ => 1
  | TFolder _ _ children => S (fold_right (fun c m => nodes c + m) 0 children)
  end.

Definition nodes_of_all (children : list Tree) : nat :=
  fold_right (fun c m => nodes c + m) 0 children.

(** No file entry has the folder type. *)
Fixpoint typed (t : Tree) : bool :=
  match t with
  | TFile _ _ file_type => negb (eq_str file_type folder_type)
  | TFolder _ _ children => forallb typed children
  end.

(** Every file entry has a string for a name. *)
Fixpoint named (t : Tree) : bool :=
  match t with
  | TFile (PStr _) _ _ => true
  | TFile _ _ _ => false
  | TFolder _ _ children => forallb named children
  end.

(** The entries of a node under [previous_path], the node first and then
    its descendants from left to right; a file name that is no string
    cannot be joined to the path. *)
Fixpoint flatten (previous_path : Path) (t : Tree) : Result (list (pyobj * Path)) :=
  match t with
  | TFile file_name file_id _ =>
      let? path := path_div previous_path file_name in
      Ok [(file_id, path)]
  | TFolder file_name _ children =>
      let? inner :=
        (fix all (cs : list Tree) : Result (list (pyobj * Path)) :=
           match cs with
           | [] => Ok []
           | c :: rest =>
               let? a := flatten (file_name :: previous_path) c in
               let? b := all rest in
               Ok (a ++ b)
           end) children in
      Ok ((PNone, file_name :: previous_path) :: inner)
  end.

Fixpoint flatten_all (previous_path : Path) (children : list Tree)
  : Result (list (pyobj * Path)) :=
  match children with
  | [] => Ok []
  | c :: rest =>
      let? a := flatten previous_path c in
      let? b := flatten_all previous_path rest in
      Ok (a ++ b)
  end.

(** ** Texts *)

(** No quote in the text. *)
Fixpoint quote_free (s : string) : bool :=
  match s with
  | EmptyString => true
  | String c rest => negb (Ascii.eqb c quote) && quote_free rest
  end.

(** No space in the text. *)
Fixpoint space_free (s : string) : bool :=
  match s with
  | EmptyString => true
  | String c rest => negb (Ascii.eqb c space) && space_free rest
  end.

(** A text in which no quote stands bare and every backslash is followed
    by a character other than the newline: the body of a JavaScript string
    literal in single quotes. *)
Fixpoint escaped (s : string) : bool :=
  match s with
  | EmptyString => true
  | String c rest =>
      if Ascii.eqb c quote then false
      else if Ascii.eqb c backslash then
        match rest with
        | EmptyString => false
        | String d rest' => negb (Ascii.eqb d newline) && escaped rest'
        end
      else escaped rest
  end.

(** ** The synthetic site, as trees and on a disk with a file in the way *)

Module TreeFixture.
Import Fixture.

Definition sub_node : Tree :=
  TFolder "sub" "idSub"
          [TFile (PStr "fileA") (PStr "idA") (PStr "image/png");
           TFile (PStr "fileB") (PStr "idB") (PStr "text/plain")].

Definition root_children : list Tree :=
  [sub_node; TFile (PStr "fileC") (PStr "idC") (PStr "text/plain")].

Definition root_node : Tree := TFolder "root" "idRoot" root_children.

Definition root_rows : list (pyobj * pyobj * pyobj) :=
  [(PStr "idSub", PStr "sub", PStr folder_type);
   (PStr "idC", PStr "fileC", PStr "text/plain")].

Definition short_url : string := folders_url +:+ "idShort".

(** A world whose disk holds a regular file where [root_plan] wants the
    directory of the subfolder. *)
Definition blocked : World :=
  {| client := []; disk := {[ ["sub"; "root"; "work"] := File "data" ]};
     stdout := []; trace := [] |}.

End TreeFixture.

(** * Verification *)

(** ** The scanners on small inputs *)

Example finditer_payload :
  finditer "window['_DRIVE_ivd'] = '[[1,2]]'; var x = 'y';"
  = ["_DRIVE_ivd"; "[[1,2]]"; "y"].
Proof. reflexivity. Qed.

Example finditer_escaped_quote : finditer "'a\'b' + 'c'" = ["a\'b"; "c"].
Proof. reflexivity. Qed.

Example finditer_unclosed : finditer "x = 'abc" = [].
Proof. reflexivity. Qed.

(** A backslash before a newline ends the attempt; the search goes on from
    the next character. *)
Example finditer_restart :
  finditer ("'a\" +:+ String newline "'b'") = ["b"].
Proof. reflexivity. Qed.

Example folder_name_first_token :
  folder_name_match "My Folder - Google Drive" = Some "My".
Proof. reflexivity. Qed.

Example folder_name_leading_space : folder_name_match " x" = None.
Proof. reflexivity. Qed.

Lemma folder_id_of_url (id : string) : str_from 39 (folders_url +:+ id) = id.
Proof. reflexivity. Qed.

(** ** The script scan (lines 59 to 76) *)

Section Extraction.

Lemma find_encoded_data_skip before rest :
  Forall no_marker before ->
  find_encoded_data (before ++ rest) = find_encoded_data rest.
Proof.
  induction 1 as [|s before Hs _ IH]; simpl; [reflexivity|].
  unfold no_marker in Hs. rewrite Hs. exact IH.
Qed.

Lemma marker_script_or_none scripts :
  Forall no_marker scripts \/ exists s, marker_script scripts s.
Proof.
  induction scripts as [|s scripts IH].
  - left. constructor.
  - destruct (str_contains marker s) eqn:Hs.
    + right. exists s, [], scripts. repeat split; [constructor | exact Hs].
    + destruct IH as [IH | (s' & before & after & -> & Hb & Hs')].
      * left. constructor; assumption.
      * right. exists s', (s :: before), after.
        repeat split; [constructor; assumption | exact Hs'].
Qed.

Lemma marker_script_unique scripts s s' :
  marker_script scripts s -> marker_script scripts s' -> s = s'.
Proof.
  intros (b & a & -> & Hb & Hs) (b' & a' & Heq & Hb' & Hs').
  revert b' Heq Hb'. induction Hb as [|x b Hx _ IH]; intros b' Heq Hb'.
  - destruct b' as [|y b']; simpl in Heq.
    + congruence.
    + inversion Heq; subst y. inversion Hb' as [|? ? Hy _]; subst.
      unfold no_marker in Hy. congruence.
  - destruct b' as [|y b']; simpl in Heq.
    + inversion Heq; subst. unfold no_marker in Hx. congruence.
    + inversion Heq; subst y. inversion Hb'; subst. eapply IH; eassumption.
Qed.

Lemma find_encoded_data_none scripts :
  Forall no_marker scripts -> find_encoded_data scripts = Raise StructureNotFound.
Proof.
  intros H. rewrite <- (app_nil_r scripts).
  rewrite (find_encoded_data_skip _ [] H). reflexivity.
Qed.

Lemma find_encoded_data_at scripts s :
  marker_script scripts s ->
  find_encoded_data scripts =
    match nth_error (finditer s) 1 with
    | Some encoded_data => Ok encoded_data
    | None => Raise PayloadNotFound
    end.
Proof.
  intros (b & a & -> & Hb & Hs).
  rewrite (find_encoded_data_skip _ _ Hb). simpl. rewrite Hs. reflexivity.
Qed.

End Extraction.

Section ExtractionFailures.
Context `{P : Platform}.

Lemma parse_listing_no_payload folder_soup e :
  find_encoded_data (scripts folder_soup) = Raise e ->
  parse_listing unicode_escape json_loads folder_soup = Raise e.
Proof. intros H. unfold parse_listing. rewrite H. reflexivity. Qed.

(** C6: the scan of the script tags raises the error for a missing
    structure exactly when no script tag contains the marker, and the
    error for a missing payload exactly when the script tag it stops at
    (the first with the marker) holds fewer than two string literals; the
    parse of the page then fails with the same error. *)
Theorem extraction_failures (folder_soup : Soup) :
  let scan := find_encoded_data (scripts folder_soup) in
  (scan = Raise StructureNotFound <-> Forall no_marker (scripts folder_soup)) /\
  (scan = Raise PayloadNotFound <->
     exists s, marker_script (scripts folder_soup) s /\ length (finditer s) < 2) /\
  (scan = Raise StructureNotFound \/ scan = Raise PayloadNotFound <->
     ~ exists encoded_data, scan = Ok encoded_data) /\
  (forall e, scan = Raise e ->
     parse_listing unicode_escape json_loads folder_soup = Raise e).
Proof.
  cbv zeta. destruct folder_soup as [scripts ttl]; simpl.
  destruct (marker_script_or_none scripts) as [Hnone | [s Hs]].
  - rewrite (find_encoded_data_none _ Hnone).
    split; [|split; [|split]].
    + split; intros _; [exact Hnone | reflexivity].
    + split; [discriminate|].
      intros (s & (b & a & -> & _ & Hs) & _).
      apply Forall_app in Hnone as [_ Hnone].
      inversion Hnone as [|? ? Hs' _]; subst. unfold no_marker in Hs'. congruence.
    + split; [intros _ [x Hx]; discriminate | intros _; left; reflexivity].
    + intros e He. apply parse_listing_no_payload. simpl.
      rewrite (find_encoded_data_none _ Hnone). exact He.
  - rewrite (find_encoded_data_at _ _ Hs).
    assert (Hnot : ~ Forall no_marker scripts).
    { destruct Hs as (b & a & -> & _ & Hs). intros H.
      apply Forall_app in H as [_ H]. inversion H as [|? ? Hs' _]; subst.
      unfold no_marker in Hs'. congruence. }
    destruct (nth_error (finditer s) 1) as [g|] eqn:Hnth.
    + assert (Hlen : ~ length (finditer s) < 2).
      { assert (1 < length (finditer s)); [|lia].
        apply nth_error_Some. rewrite Hnth. discriminate. }
      split; [|split; [|split]].
      * split; [discriminate | intros H; contradiction].
      * split; [discriminate|]. intros (s' & Hs' & Hl).
        rewrite (marker_script_unique _ _ _ Hs' Hs) in Hl. contradiction.
      * split; [intros [H | H]; discriminate|].
        intros H. exfalso. apply H. exists g. reflexivity.
      * intros e He. discriminate.
    + assert (Hlen : length (finditer s) < 2).
      { apply nth_error_None in Hnth. lia. }
      split; [|split; [|split]].
      * split; [discriminate | intros H; contradiction].
      * split; [|reflexivity]. intros _. exists s. split; assumption.
      * split; [intros _ [x Hx]; discriminate | intros _; right; reflexivity].
      * intros e He. apply parse_listing_no_payload. simpl.
        rewrite (find_encoded_data_at _ _ Hs), Hnth. exact He.
Qed.

End ExtractionFailures.

(** ** The rows (lines 94 to 96) *)

Section Rows.

Lemma traverse_raises {A B} (f : A -> Result B) l :
  Exists (fun x => exists e, f x = Raise e) l ->
  exists e, ResultMonad.traverse f l = Raise e.
Proof.
  induction 1 as [x l [e He] | x l _ [e IH]]; simpl.
  - rewrite He. exists e. reflexivity.
  - destruct (f x) as [y|e']; simpl; [|eauto].
    rewrite IH. exists e. reflexivity.
Qed.

Lemma traverse_raised_by {A B} (f : A -> Result B) l e :
  ResultMonad.traverse f l = Raise e -> exists x, In x l /\ f x = Raise e.
Proof.
  induction l as [|x l IH]; simpl; [discriminate|].
  destruct (f x) as [y|e'] eqn:Hx; simpl.
  - destruct (ResultMonad.traverse f l) as [ys|e'']; simpl; [discriminate|].
    intros [= ->]. destruct (IH eq_refl) as (x' & Hin & Hx').
    exists x'. split; [right|]; assumption.
  - intros [= ->]. exists x. split; [left; reflexivity | exact Hx].
Qed.

Lemma short_row_raises row :
  short_row row -> exists e, getitem row 3 = Raise e.
Proof.
  intros (items & -> & Hlen). unfold getitem.
  destruct (nth_error items 3) eqn:Hnth.
  - assert (3 < length items); [|lia].
    apply nth_error_Some. rewrite Hnth. discriminate.
  - eexists. reflexivity.
Qed.

Lemma array_raises_IndexError row k e :
  is_array row -> getitem row k = Raise e ->
  e = IndexError "list index out of range".
Proof.
  intros [items ->]. simpl. destruct (nth_error items k); congruence.
Qed.

Lemma column_raised_by k rows e :
  column k (PList rows) = Raise e ->
  exists row, In row rows /\ getitem row k = Raise e.
Proof. unfold column. simpl. apply traverse_raised_by. Qed.

Lemma parse_rows_short rows :
  Exists short_row rows -> exists e, parse_rows (PList rows) = Raise e.
Proof.
  intros H. unfold parse_rows.
  destruct (column 0 (PList rows)) as [c0|e0]; simpl; [|eauto].
  destruct (column 2 (PList rows)) as [c2|e2]; simpl; [|eauto].
  destruct (traverse_raises (fun i => getitem i 3) rows) as [e He].
  { eapply Exists_impl; [exact H|]. intros row. apply short_row_raises. }
  unfold column. simpl. rewrite He. simpl. eauto.
Qed.

Lemma parse_rows_arrays rows e :
  Forall is_array rows -> parse_rows (PList rows) = Raise e ->
  e = IndexError "list index out of range".
Proof.
  intros Harr. unfold parse_rows.
  assert (Hcol : forall k e', column k (PList rows) = Raise e' ->
                              e' = IndexError "list index out of range").
  { intros k e' Hk. apply column_raised_by in Hk as (row & Hin & Hrow).
    rewrite Forall_forall in Harr.
    apply (array_raises_IndexError row k); [|exact Hrow].
    apply Harr. apply list_elem_of_In. exact Hin. }
  destruct (column 0 (PList rows)) as [c0|e0] eqn:H0; simpl.
  2:{ intros [= <-]. eapply Hcol. exact H0. }
  destruct (column 2 (PList rows)) as [c2|e2] eqn:H2; simpl.
  2:{ intros [= <-]. eapply Hcol. exact H2. }
  destruct (column 3 (PList rows)) as [c3|e3] eqn:H3; simpl.
  2:{ intros [= <-]. eapply Hcol. exact H3. }
  discriminate.
Qed.

End Rows.

Section MalformedRows.
Context `{P : Platform}.

Lemma parse_listing_decoded folder_soup folder_arr :
  decoded folder_soup folder_arr ->
  parse_listing unicode_escape json_loads folder_soup =
    (let? first := getitem folder_arr 0 in
     let folder_contents := if is_None first then PList [] else first in
     let? title := title_text folder_soup in
     let? file_name :=
       match folder_name_match title with
       | Some token => Ok token
       | None => Raise (ValueError "Folder name not parsed out in {title}")
       end in
     let? rows := parse_rows folder_contents in
     Ok (file_name, rows)).
Proof.
  intros (enc & esc & H1 & H2 & H3). unfold parse_listing.
  rewrite H1. simpl. rewrite H2. simpl. rewrite H3. reflexivity.
Qed.

(** C5, as the code has it: when a child row of the decoded listing is an
    array of fewer than four elements, the parse of the page raises; with
    rows that are all arrays and a title that parses, what it raises is the
    [IndexError] of the list subscript, whose only content is the fixed
    message, whichever row is short. *)
Theorem short_row_fails (folder_soup : Soup) (rows rest : list pyobj) :
  decoded folder_soup (PList (PList rows :: rest)) ->
  Exists short_row rows ->
  exists e,
    parse_listing unicode_escape json_loads folder_soup = Raise e /\
    (forall file_name,
       titled folder_soup file_name -> Forall is_array rows ->
       e = IndexError "list index out of range").
Proof.
  intros Hdec Hshort. rewrite (parse_listing_decoded _ _ Hdec).
  cbn [getitem nth_error ResultMonad.bind is_None].
  destruct (parse_rows_short rows Hshort) as [e He].
  destruct (title_text folder_soup) as [t|e1] eqn:Ht; simpl.
  2:{ exists e1. split; [reflexivity|].
      intros name (t' & Ht' & _). congruence. }
  destruct (folder_name_match t) as [name|] eqn:Hname; simpl.
  2:{ eexists. split; [reflexivity|].
      intros name (t' & Ht' & Hn). congruence. }
  rewrite He. simpl. exists e. split; [reflexivity|].
  intros _ _ Harr. eapply parse_rows_arrays; eassumption.
Qed.

End MalformedRows.

(** C5 fails as stated: a short row at index 0 and a short row at index 1
    raise the very same error, so no index can be read off it. *)
Lemma row_index_is_lost : ~ error_tells_row_index.
Proof.
  intros [index_of H].
  pose (good := PList [PStr "id"; PNone; PStr "name"; PStr "text/plain"]).
  destruct (H [PList []] 0) as (e0 & He0 & Hi0).
  { exists (PList []). repeat split; [|constructor].
    exists []. split; [reflexivity | simpl; lia]. }
  destruct (H [good; PList []] 1) as (e1 & He1 & Hi1).
  { exists (PList []). repeat split.
    - exists []. split; [reflexivity | simpl; lia].
    - simpl. constructor; [|constructor].
      intros (items & Heq & Hlen). inversion Heq; subst. simpl in Hlen. lia. }
  vm_compute in He0, He1. congruence.
Qed.

(** ** Directory creation *)

Section FileSystem.

Lemma stat_insert_shorter (fs : FS) (p q : Path) (n : node) :
  length q < length p -> stat (<[p := n]> fs) q = stat fs q.
Proof.
  induction q as [|name dir IH]; intros Hlen; simpl; [reflexivity|].
  simpl in Hlen. rewrite IH by lia.
  rewrite lookup_insert_ne; [reflexivity|].
  intros ->. simpl in Hlen. lia.
Qed.

Lemma os_mkdir_is_dir (p : Path) (fs fs' : FS) :
  os_mkdir p fs = Ok fs' -> is_dir fs' p = true.
Proof.
  unfold os_mkdir, is_dir.
  destruct (stat fs p) eqn:Hp; try discriminate.
  destruct (stat fs (parent p)) as [[|]| |] eqn:Hdir; try discriminate.
  intros [= <-]. destruct p as [|name dir]; [discriminate|].
  simpl in *. rewrite stat_insert_shorter by (simpl; lia).
  rewrite Hdir, lookup_insert_eq. reflexivity.
Qed.

Lemma mkdir_leaf_is_dir (p : Path) (fs fs' : FS) u :
  mkdir_leaf true p fs = (Ok u, fs') -> is_dir fs' p = true.
Proof.
  unfold mkdir_leaf. destruct (os_mkdir p fs) as [fs1|e] eqn:Hos.
  - intros [= _ <-]. eapply os_mkdir_is_dir; eassumption.
  - destruct (is_dir fs p) eqn:Hd; destruct e; simpl; intros [= <-]; congruence.
Qed.

Lemma Path_mkdir_is_dir (p : Path) (fs fs' : FS) u :
  Path_mkdir p fs = (Ok u, fs') -> is_dir fs' p = true.
Proof.
  destruct p as [|name dir]; simpl.
  - intros _. reflexivity.
  - destruct (os_mkdir (name :: dir) fs) as [fs1|e] eqn:Hos.
    + intros [= _ <-]. eapply os_mkdir_is_dir; eassumption.
    + destruct e;
        try (destruct (is_dir fs (name :: dir)) eqn:Hd;
             intros [= <-]; congruence).
      destruct (Path_mkdir dir fs) as [[u1|e1] fs1]; [|discriminate].
      apply mkdir_leaf_is_dir.
Qed.


End FileSystem.

Section DirectoryCreation.
Context `{P : Platform}.


End DirectoryCreation.

(** ** The last loop of [download_folder] (lines 227 to 247) *)

Section Orchestrator.
Context `{P : Platform}.

Variables (quiet : bool) (proxy : Proxy) (speed : Speed) (use_cookies : bool).

Lemma for_files_app pre rest return_code w rc1 w1 :
  rounds quiet proxy speed use_cookies return_code pre w = Some (rc1, w1) ->
  for_files quiet proxy speed use_cookies return_code (pre ++ rest) w =
  for_files quiet proxy speed use_cookies rc1 rest w1.
Proof.
  revert return_code w. induction pre as [|item pre IH]; intros rc w; simpl.
  - intros [= -> ->]. reflexivity.
  - unfold bind at 1.
    destruct (download_entry quiet proxy speed use_cookies rc item w)
      as [[[rc'|rc']|e] w']; try discriminate.
    apply IH.
Qed.

Lemma download_entry_continue return_code item w rc1 w1 :
  download_entry quiet proxy speed use_cookies return_code item w
    = (Ok (Continue rc1), w1) ->
  exists ev, performs quiet proxy speed use_cookies item ev /\ trace w1 = trace w ++ [ev] /\
             client w1 = client w /\ stdout w1 = stdout w.
Proof.
  destruct item as [file_id file_path]. unfold download_entry, performs. simpl.
  destruct (is_None file_id).
  - unfold bind, mkdir, ret.
    destruct (Path_mkdir file_path (disk w)) as [[u|e] fs1]; [|discriminate].
    intros [= <- <-]. eexists. repeat split.
  - unfold bind, lift, fetch, ret, when.
    destruct (str_add files_url file_id) as [url|e]; [|discriminate].
    destruct (download url file_path quiet proxy speed use_cookies (disk w))
      as [[[|]|e] fs1]; simpl.
    + intros [= <- <-]. eexists. split; [exists url; split; reflexivity|].
      repeat split.
    + destruct quiet; simpl; discriminate.
    + discriminate.
Qed.

Lemma rounds_trace pre return_code w rc1 w1 :
  rounds quiet proxy speed use_cookies return_code pre w = Some (rc1, w1) ->
  exists evs, Forall2 (performs quiet proxy speed use_cookies) pre evs /\ trace w1 = trace w ++ evs /\
              client w1 = client w /\ stdout w1 = stdout w.
Proof.
  revert return_code w. induction pre as [|item pre IH]; intros rc w; simpl.
  - intros [= -> ->]. exists []. rewrite app_nil_r. repeat split. constructor.
  - destruct (download_entry quiet proxy speed use_cookies rc item w)
      as [[[rc'|rc']|e] w'] eqn:Hround; try discriminate.
    intros Hrest.
    destruct (download_entry_continue _ _ _ _ _ Hround) as (ev & Hev & Ht & Hc & Hs).
    destruct (IH _ _ Hrest) as (evs & Hevs & Ht' & Hc' & Hs').
    exists (ev :: evs). repeat split.
    + constructor; assumption.
    + rewrite Ht', Ht, <- app_assoc. reflexivity.
    + congruence.
    + congruence.
Qed.

(** C4: when the rounds of the items before a file entry all go through
    and the download of that entry returns [False], the loop returns
    [False] at once.  The calls made are those of the earlier items, in the
    order of the list, and then the failed download, nothing after it; the
    disk is the one the failed download left, with all that the earlier
    rounds did to it. *)
Theorem failed_download_aborts pre file_id file_path post w rc1 w1 url fs2 :
  rounds quiet proxy speed use_cookies true pre w = Some (rc1, w1) ->
  is_None file_id = false ->
  str_add files_url file_id = Ok url ->
  download url file_path quiet proxy speed use_cookies (disk w1) = (Ok false, fs2) ->
  exists evs w2,
    for_files quiet proxy speed use_cookies true
              (pre ++ (file_id, file_path) :: post) w = (Ok false, w2) /\
    Forall2 (performs quiet proxy speed use_cookies) pre evs /\
    trace w2 = trace w ++ evs ++
               [EvDownload url file_path quiet proxy speed use_cookies (Ok false)] /\
    disk w2 = fs2 /\
    client w2 = client w.
Proof.
  intros Hpre Hid Hurl Hdl.
  destruct (rounds_trace _ _ _ _ _ Hpre) as (evs & Hevs & Ht & Hc & _).
  rewrite (for_files_app _ _ _ _ _ _ Hpre). simpl.
  unfold bind at 1. unfold download_entry. rewrite Hid.
  unfold bind at 1. unfold lift. rewrite Hurl.
  unfold bind at 1. unfold fetch. rewrite Hdl. simpl.
  destruct quiet; simpl.
  - eexists evs, _. split; [reflexivity|]. simpl.
    rewrite Ht, <- app_assoc. repeat split; assumption.
  - eexists evs, _. split; [reflexivity|]. simpl.
    rewrite Ht, <- app_assoc. repeat split; assumption.
Qed.

End Orchestrator.

(** ** [get_folder_list] *)

Section FolderList.
Context `{P : Platform}.

Lemma listed_after good w w1 out pre :
  trace w1 = trace w ++ pre ->
  ~ Exists failed_fetch pre ->
  listed good w1 out -> listed good w out.
Proof.
  intros Ht Hpre (evs & Hevs & Hout). exists (pre ++ evs). split.
  - rewrite Hevs, Ht, <- app_assoc. reflexivity.
  - destruct (fst out) as [[[|] fl]|e]; rewrite Exists_app; tauto.
Qed.

Lemma listed_raise good w e : listed good w (Raise e, w).
Proof.
  exists []. simpl. rewrite app_nil_r. split; [reflexivity|].
  intros H. inversion H.
Qed.

Lemma for_rows_listed recurse quiet file_name file_id :
  (forall url w, listed resolved w (recurse url w)) ->
  forall rows file_contents w,
    Forall resolved file_contents ->
    listed (folder_of file_name file_id) w
           (for_rows recurse quiet file_name file_id true file_contents rows w).
Proof.
  intros Hrec. induction rows as [|[[row_id row_name] row_type] rows IH];
    intros acc w Hacc; simpl.
  - exists []. simpl. rewrite app_nil_r. split; [reflexivity|]. split.
    + intros H. inversion H.
    + exists acc. split; [reflexivity | exact Hacc].
  - destruct (eq_str row_type folder_type) eqn:Htype; simpl.
    + (* a folder row *)
      unfold bind at 1.
      destruct (when (negb quiet)
                     (print [PStr "Retrieving folder"; row_id; row_name]) w)
        as [[[]|e] w1] eqn:Hprint.
      2:{ destruct quiet; discriminate. }
      assert (Ht1 : trace w1 = trace w ++ []).
      { rewrite app_nil_r. destruct quiet; simpl in Hprint;
          inversion Hprint; reflexivity. }
      eapply listed_after; [exact Ht1 | intros H; inversion H |].
      unfold bind at 1. unfold lift.
      destruct (str_add folders_url row_id) as [url|e]; [|apply listed_raise].
      unfold bind at 1.
      destruct (Hrec url w1) as (evs & Hevs & Hout).
      destruct (recurse url w1) as [[[[|] folder_structure]|e] w2]; simpl in *.
      * destruct Hout as [Hnot Hres].
        eapply listed_after; [exact Hevs | exact Hnot |].
        apply IH. apply Forall_app. split; [exact Hacc|].
        constructor; [exact Hres | constructor].
      * exists evs. simpl. split; [exact Hevs|]. split; [reflexivity | apply Hout].
      * exists evs. simpl. split; [exact Hevs | exact Hout].
    + (* a file row *)
      unfold bind at 1.
      destruct (when (negb quiet)
                     (print [PStr "Processing file"; row_id; row_name]) w)
        as [[[]|e] w1] eqn:Hprint.
      2:{ destruct quiet; discriminate. }
      assert (Ht1 : trace w1 = trace w ++ []).
      { rewrite app_nil_r. destruct quiet; simpl in Hprint;
          inversion Hprint; reflexivity. }
      eapply listed_after; [exact Ht1 | intros H; inversion H |].
      apply IH. apply Forall_app. split; [exact Hacc|].
      constructor; [|constructor]. constructor. exact Htype.
Qed.

Lemma listed_impl (good good' : pyobj -> Prop) w out :
  (forall folder_list, good folder_list -> good' folder_list) ->
  listed good w out -> listed good' w out.
Proof.
  intros Himpl (evs & Hevs & Hout). exists evs. split; [exact Hevs|].
  destruct (fst out) as [[[|] fl]|e]; [|exact Hout|exact Hout].
  destruct Hout. split; auto.
Qed.

Lemma folder_dict_resolved folder folder_list :
  folder_dict folder folder_list -> resolved folder_list.
Proof. intros (name & children & -> & H). constructor. exact H. Qed.

Lemma get_folder_list_listed depth :
  forall folder quiet use_cookies w,
    listed (folder_dict folder) w
           (get_folder_list depth folder quiet use_cookies w).
Proof.
  induction depth as [|depth IH]; intros folder quiet use_cookies w.
  - apply listed_raise.
  - cbn [get_folder_list]. unfold bind at 1. unfold get.
    destruct (client_get folder (client w)) as [[folder_page|e] s].
    + cbv beta iota zeta.
      set (w0 := emit (EvGet folder (Ok (status_code folder_page))) _).
      assert (Ht0 : trace w0
                    = trace w ++ [EvGet folder (Ok (status_code folder_page))])
        by reflexivity.
      clearbody w0.
      destruct (status_code folder_page =? 200)%Z eqn:Hstatus; cbn [negb].
      * (* the page was served *)
        apply (listed_after _ w w0 _ _ Ht0).
        { intros H. apply Exists_cons in H as [H | H]; [|inversion H].
          simpl in H. apply Z.eqb_eq in Hstatus. contradiction. }
        unfold bind at 1.
        destruct (when (negb use_cookies) clear_cookies w0)
          as [[[]|e] w1] eqn:Hclear.
        2:{ destruct use_cookies; discriminate. }
        apply (listed_after _ w0 w1 _
                            (if use_cookies then [] else [EvCookiesClear])).
        { destruct use_cookies; simpl in Hclear; inversion Hclear; simpl;
            [rewrite app_nil_r|]; reflexivity. }
        { destruct use_cookies; intros H;
            [|apply Exists_cons in H as [H | H]]; inversion H. }
        unfold bind at 1. unfold lift.
        destruct (parse_listing unicode_escape json_loads
                                (BeautifulSoup (text folder_page)))
          as [[file_name rows]|e]; [|apply listed_raise].
        eapply listed_impl; [|apply for_rows_listed].
        { intros fl (children & -> & Hc). exists file_name, children. auto. }
        { intros url w'. eapply listed_impl; [|apply IH].
          intros fl. apply folder_dict_resolved. }
        { constructor. }
      * (* any other status *)
        exists [EvGet folder (Ok (status_code folder_page))].
        split; [exact Ht0|]. simpl. split; [reflexivity|].
        constructor. simpl. apply Z.eqb_neq. exact Hstatus.
    + cbv beta iota zeta. eexists [_]. simpl. split; [reflexivity|].
      intros H. apply Exists_cons in H as [H | H]; inversion H.
Qed.

(** C3: whenever one of the page fetches of a run, the first or a nested
    one, does not answer 200, the call returns [(False, None)]: no tree, and
    nothing of the subtrees that were resolved before. *)
Theorem failed_fetch_no_tree depth folder quiet use_cookies w evs :
  let out := get_folder_list depth folder quiet use_cookies w in
  trace (snd out) = trace w ++ evs ->
  Exists failed_fetch evs ->
  fst out = Ok (false, PNone).
Proof.
  cbv zeta. intros Hevs Hfailed.
  destruct (get_folder_list_listed depth folder quiet use_cookies w)
    as (evs' & Hevs' & Hout).
  rewrite Hevs in Hevs'. apply app_inv_head in Hevs'. subst evs'.
  destruct (fst (get_folder_list depth folder quiet use_cookies w))
    as [[[|] fl]|e].
  - destruct Hout. contradiction.
  - destruct Hout as [-> _]. reflexivity.
  - contradiction.
Qed.

(** C9: what [get_folder_list] returns is either [True] with the folder's
    dictionary, all four keys set, or [False] with [None]. *)
Theorem return_shapes depth folder quiet use_cookies w return_code folder_list w' :
  get_folder_list depth folder quiet use_cookies w
    = (Ok (return_code, folder_list), w') ->
  (return_code = true /\ folder_dict folder folder_list) \/
  (return_code = false /\ folder_list = PNone).
Proof.
  intros Hrun.
  destruct (get_folder_list_listed depth folder quiet use_cookies w)
    as (evs & _ & Hout).
  rewrite Hrun in Hout. simpl in Hout. destruct return_code.
  - left. split; [reflexivity | apply Hout].
  - right. split; [reflexivity | apply Hout].
Qed.

Lemma resolved_nodes tree n :
  resolved tree -> node_of tree n -> kind_invariant n.
Proof.
  intros Hres Hnode. induction Hnode as [tree | tree children child n Hc Hin _ IH].
  - destruct Hres as [name id type Htype | name id children Hch];
      unfold kind_invariant, kind_of; cbn.
    + rewrite Htype. reflexivity.
    + eexists. reflexivity.
  - apply IH. destruct Hres as [name id type Htype | name id children' Hch];
      cbn in Hc; [discriminate|].
    injection Hc as <-. rewrite Forall_forall in Hch.
    apply Hch. apply list_elem_of_In. exact Hin.
Qed.

(** C7: in the tree a successful call returns, the root and every
    descendant obey the rule of kinds: a node whose type is the folder
    type has a list of children, possibly empty, and any other node has
    [None] for children. *)
Theorem kinds_and_children depth folder quiet use_cookies w tree w' n :
  get_folder_list depth folder quiet use_cookies w = (Ok (true, tree), w') ->
  node_of tree n ->
  kind_invariant n.
Proof.
  intros Hrun. apply resolved_nodes.
  destruct (get_folder_list_listed depth folder quiet use_cookies w)
    as (evs & _ & Hout).
  rewrite Hrun in Hout. simpl in Hout.
  eapply folder_dict_resolved. apply Hout.
Qed.

End FolderList.

(** ** [download_folder] and the [use_cookies] argument *)

Section Cookies.
Context `{P : Platform}.

Lemma download_entry_events quiet proxy speed use_cookies return_code item w :
  let out := download_entry quiet proxy speed use_cookies return_code item w in
  client (snd out) = client w /\
  exists evs, trace (snd out) = trace w ++ evs /\
              Forall (file_event use_cookies) evs.
Proof.
  destruct item as [file_id file_path]. cbv zeta. unfold download_entry.
  destruct (is_None file_id).
  - unfold bind, mkdir, ret.
    destruct (Path_mkdir file_path (disk w)) as [[u|e] fs1]; simpl;
      (split; [reflexivity|]); eexists [_]; (split; [reflexivity|]);
      repeat constructor.
  - unfold bind, lift, fetch, ret, when.
    destruct (str_add files_url file_id) as [url|e]; simpl.
    2:{ split; [reflexivity|]. exists []. rewrite app_nil_r.
        split; [reflexivity | constructor]. }
    destruct (download url file_path quiet proxy speed use_cookies (disk w))
      as [[[|]|e] fs1]; simpl; try destruct quiet; simpl;
      (split; [reflexivity|]); eexists [_]; (split; [reflexivity|]);
      repeat constructor.
Qed.

Lemma for_files_cons quiet proxy speed use_cookies return_code item plan w :
  for_files quiet proxy speed use_cookies return_code (item :: plan) w =
  match download_entry quiet proxy speed use_cookies return_code item w with
  | (Ok (Continue rc), w1) => for_files quiet proxy speed use_cookies rc plan w1
  | (Ok (Return rc), w1) => (Ok rc, w1)
  | (Raise e, w1) => (Raise e, w1)
  end.
Proof.
  simpl. unfold bind.
  destruct (download_entry quiet proxy speed use_cookies return_code item w)
    as [[[rc|rc]|e] w1]; reflexivity.
Qed.

Lemma for_files_events quiet proxy speed use_cookies plan :
  forall return_code w,
    let out := for_files quiet proxy speed use_cookies return_code plan w in
    client (snd out) = client w /\
    exists evs, trace (snd out) = trace w ++ evs /\
                Forall (file_event use_cookies) evs.
Proof.
  induction plan as [|item plan IH]; intros rc w; cbv zeta.
  - simpl. unfold bind, when, ret, print.
    destruct (rc && negb quiet); simpl; (split; [reflexivity|]);
      exists []; rewrite app_nil_r; (split; [reflexivity | constructor]).
  - rewrite for_files_cons.
    pose proof (download_entry_events quiet proxy speed use_cookies rc item w)
      as [Hc (evs & Ht & Hevs)].
    destruct (download_entry quiet proxy speed use_cookies rc item w)
      as [[[rc'|rc']|e] w1]; simpl in Hc, Ht.
    + destruct (IH rc' w1) as [Hc' (evs' & Ht' & Hevs')].
      split; [congruence|]. exists (evs ++ evs'). split.
      * rewrite Ht', Ht, <- app_assoc. reflexivity.
      * apply Forall_app. split; assumption.
    + split; [exact Hc|]. exists evs. split; assumption.
    + split; [exact Hc|]. exists evs. split; assumption.
Qed.

Lemma download_folder_plan depth folder output quiet proxy speed use_cookies w :
  download_folder depth folder output quiet proxy speed use_cookies w =
  match plan_of depth folder output quiet w with
  | (Ok (return_code, directory_structure), w2) =>
      for_files quiet proxy speed use_cookies return_code directory_structure w2
  | (Raise e, w2) => (Raise e, w2)
  end.
Proof.
  unfold download_folder, plan_of, download_listed, bind, lift, ret.
  destruct (when (negb quiet) (print [PStr "Retrieving folder list"]) w)
    as [[[]|e0] w0]; [|reflexivity].
  destruct (get_folder_list depth folder quiet false w0)
    as [[[[|] folder_list]|e] w1]; try reflexivity.
  cbn [negb].
  repeat (break_match; try reflexivity).
Qed.

Lemma plan_of_world depth folder output quiet w :
  let w0 := snd (when (negb quiet) (print [PStr "Retrieving folder list"]) w) in
  let listing := get_folder_list depth folder quiet false w0 in
  let w2 := snd (plan_of depth folder output quiet w) in
  client w2 = client (snd listing) /\
  disk w2 = disk (snd listing) /\
  trace w2 = trace (snd listing).
Proof.
  cbv zeta. unfold plan_of, bind, lift, ret.
  destruct (when (negb quiet) (print [PStr "Retrieving folder list"]) w)
    as [[[]|e0] w0] eqn:Hprint.
  2:{ destruct quiet; discriminate. }
  simpl snd.
  destruct (get_folder_list depth folder quiet false w0)
    as [[[[|] folder_list]|e] w1]; simpl snd; try (repeat split; fail).
  cbn [negb].
  destruct quiet; simpl;
    repeat (break_match; simpl; try (repeat split; fail)).
Qed.

(** C10: the folder list is fetched with [use_cookies=False] whatever the
    caller passes.  There is one plan and one world, both fixed by that
    fetch alone, from which every run goes on, so the folder list and the
    directory structure of two runs that differ in [use_cookies] are the
    same; what follows the fetch leaves the session as it is and makes only
    directory creations and downloads, each download with the caller's
    [use_cookies]. *)
Theorem listing_ignores_use_cookies depth folder output quiet proxy speed w :
  let w0 := snd (when (negb quiet) (print [PStr "Retrieving folder list"]) w) in
  let listing := get_folder_list depth folder quiet false w0 in
  exists (plan : Result (bool * list (pyobj * Path))) (w2 : World),
    client w2 = client (snd listing) /\
    disk w2 = disk (snd listing) /\
    trace w2 = trace (snd listing) /\
    (forall use_cookies,
        download_folder depth folder output quiet proxy speed use_cookies w =
        match plan with
        | Ok (return_code, directory_structure) =>
            for_files quiet proxy speed use_cookies return_code
                      directory_structure w2
        | Raise e => (Raise e, w2)
        end) /\
    (forall use_cookies,
        let out :=
          download_folder depth folder output quiet proxy speed use_cookies w in
        client (snd out) = client (snd listing) /\
        exists evs, trace (snd out) = trace (snd listing) ++ evs /\
                    Forall (file_event use_cookies) evs).
Proof.
  cbv zeta.
  destruct (plan_of_world depth folder output quiet w) as (Hc & Hd & Ht).
  exists (fst (plan_of depth folder output quiet w)),
         (snd (plan_of depth folder output quiet w)).
  split; [exact Hc|]. split; [exact Hd|]. split; [exact Ht|].
  assert (Hrun : forall use_cookies,
    download_folder depth folder output quiet proxy speed use_cookies w =
    match fst (plan_of depth folder output quiet w) with
    | Ok (return_code, directory_structure) =>
        for_files quiet proxy speed use_cookies return_code directory_structure
                  (snd (plan_of depth folder output quiet w))
    | Raise e => (Raise e, snd (plan_of depth folder output quiet w))
    end).
  { intros uc. rewrite download_folder_plan.
    destruct (plan_of depth folder output quiet w) as [[[rc ds]|e] w2];
      reflexivity. }
  split; [exact Hrun|].
  intros uc. rewrite Hrun. rewrite <- Hc, <- Ht.
  destruct (fst (plan_of depth folder output quiet w)) as [[rc ds]|e].
  - apply for_files_events.
  - simpl. split; [reflexivity|]. exists []. rewrite app_nil_r.
    split; [reflexivity | constructor].
Qed.

End Cookies.

(** ** Trees and plans of given listings *)

Section Plans.
Context `{P : Platform}.

Lemma printed_client quiet args w : client (printed quiet args w) = client w.
Proof. destruct quiet; reflexivity. Qed.

Lemma printed_trace quiet args w : trace (printed quiet args w) = trace w.
Proof. destruct quiet; reflexivity. Qed.

Lemma printed_disk quiet args w : disk (printed quiet args w) = disk w.
Proof. destruct quiet; reflexivity. Qed.

Lemma when_print quiet args w :
  when (negb quiet) (print args) w = (Ok tt, printed quiet args w).
Proof. destruct quiet; reflexivity. Qed.

Lemma eq_str_folder_type : eq_str (PStr folder_type) folder_type = true.
Proof. reflexivity. Qed.

Lemma get_folder_list_served depth folder quiet use_cookies w file_name rows s :
  serves folder (client w) file_name rows s ->
  get_folder_list (S depth) folder quiet use_cookies w =
  for_rows (fun url => get_folder_list depth url quiet use_cookies) quiet
           (PStr file_name) (PStr (str_from 39 folder)) true [] rows
           (fetched folder use_cookies s w).
Proof.
  intros (page & Hget & Hstatus & Hparse).
  cbn [get_folder_list]. unfold bind at 1. unfold get. rewrite Hget.
  cbv beta iota zeta. rewrite Hstatus. cbn [Z.eqb Pos.eqb negb].
  unfold bind at 1. unfold fetched.
  destruct use_cookies; cbn [negb when ret clear_cookies snd];
    unfold bind at 1; unfold lift; rewrite Hparse; reflexivity.
Qed.

Lemma for_rows_file recurse quiet file_name file_id file_contents
      row_id row_name row_type rows w :
  eq_str row_type folder_type = false ->
  for_rows recurse quiet file_name file_id true file_contents
           ((row_id, row_name, row_type) :: rows) w =
  for_rows recurse quiet file_name file_id true
           (file_contents ++ [entry row_name row_id row_type PNone]) rows
           (printed quiet [PStr "Processing file"; row_id; row_name] w).
Proof.
  intros Htype. cbn [for_rows]. rewrite Htype. cbn [negb].
  unfold bind at 1. rewrite when_print. reflexivity.
Qed.

Lemma for_rows_folder recurse quiet file_name file_id file_contents
      row_id row_name rows w folder_structure w' :
  recurse (folders_url +:+ row_id)
          (printed quiet [PStr "Retrieving folder"; PStr row_id; row_name] w)
    = (Ok (true, folder_structure), w') ->
  for_rows recurse quiet file_name file_id true file_contents
           ((PStr row_id, row_name, PStr folder_type) :: rows) w =
  for_rows recurse quiet file_name file_id true
           (file_contents ++ [folder_structure]) rows w'.
Proof.
  intros Hrec. cbn [for_rows]. rewrite eq_str_folder_type. cbn [negb].
  unfold bind at 1. rewrite when_print.
  unfold bind at 1. unfold lift. cbn [str_add].
  unfold bind at 1. rewrite Hrec. reflexivity.
Qed.

Lemma parse_listing_null folder_soup rest file_name :
  decoded folder_soup (PList (PNone :: rest)) ->
  titled folder_soup file_name ->
  parse_listing unicode_escape json_loads folder_soup = Ok (file_name, []).
Proof.
  intros Hdec (t & Ht & Hname). rewrite (parse_listing_decoded _ _ Hdec).
  cbn [getitem nth_error ResultMonad.bind is_None].
  rewrite Ht. cbn [ResultMonad.bind]. rewrite Hname. reflexivity.
Qed.

(** C2, as the code has it: a listing whose decoded array starts with a
    null gives a folder dictionary with an empty list of contents, and the
    directory structure made from it is empty: it holds no entry at all,
    none for the root either.  [download_folder] then returns [True] after
    the one page fetch, without a call to create a directory or to
    download, and leaves the disk as it was. *)
Theorem null_listing_empty_plan depth depth' folder quiet use_cookies w
        page s rest file_name :
  client_get folder (client w) = (Ok page, s) ->
  status_code page = 200%Z ->
  decoded (BeautifulSoup (text page)) (PList (PNone :: rest)) ->
  titled (BeautifulSoup (text page)) file_name ->
  let tree := entry (PStr file_name) (PStr (str_from 39 folder))
                    (PStr folder_type) (PList []) in
  get_folder_list (S depth) folder quiet use_cookies w
    = (Ok (true, tree), fetched folder use_cookies s w) /\
  (forall output, get_directory_structure (S depth') tree (file_name :: output) = Ok []) /\
  (forall output proxy speed,
      let out := download_folder (S depth) folder output quiet proxy speed
                                 use_cookies w in
      fst out = Ok true /\
      trace (snd out) = trace w ++ [EvGet folder (Ok 200%Z); EvCookiesClear] /\
      disk (snd out) = disk w).
Proof.
  intros Hget Hstatus Hdec Htitle. cbv zeta.
  assert (Hserves : forall w0, client w0 = client w ->
                               serves folder (client w0) file_name [] s).
  { intros w0 ->. exists page. repeat split; try assumption.
    eapply parse_listing_null; eassumption. }
  split; [|split].
  - rewrite (get_folder_list_served _ _ _ _ _ _ _ _ (Hserves w eq_refl)).
    reflexivity.
  - intros output. reflexivity.
  - intros output proxy speed.
    assert (Hrun : exists w',
               download_folder (S depth) folder output quiet proxy speed
                               use_cookies w = (Ok true, w') /\
               trace w' = trace w ++ [EvGet folder (Ok 200%Z); EvCookiesClear] /\
               disk w' = disk w).
    { unfold download_folder. unfold bind at 1. rewrite when_print.
      unfold bind at 1.
      rewrite (get_folder_list_served _ _ _ _ _ _ _ _
                 (Hserves _ (printed_client _ _ _))).
      cbn [for_rows ret]. unfold download_listed. cbn [negb].
      destruct quiet; cbn; (eexists; split; [reflexivity|]); cbn;
        rewrite <- app_assoc; split; reflexivity. }
    destruct Hrun as (w' & -> & Ht & Hd). auto.
Qed.

Lemma fetched_client folder use_cookies s w :
  client (fetched folder use_cookies s w)
  = if use_cookies then s else cookies_clear s.
Proof. destruct use_cookies; reflexivity. Qed.

(** C1, as the code has it: for a root folder that lists one subfolder
    and one file, the subfolder listing two files, the call returns the
    tree and the directory structure made from it is, in this order, the
    subfolder's directory, the subfolder's two files and the root's file:
    four entries.  The root's own directory is no entry of it.  The
    subfolder's directory bears the name its own page gives. *)
Theorem two_level_plan (depth depth' : nat) (quiet use_cookies : bool)
        (w : World) (output : Path)
        idRoot root idSub sub sub_row idA fileA typeA idB fileB typeB
        idC fileC typeC (s1 s2 : Session) :
  serves (folders_url +:+ idRoot) (client w) root
         [(PStr idSub, sub_row, PStr folder_type); (PStr idC, PStr fileC, typeC)]
         s1 ->
  serves (folders_url +:+ idSub) (if use_cookies then s1 else cookies_clear s1)
         sub [(PStr idA, PStr fileA, typeA); (PStr idB, PStr fileB, typeB)] s2 ->
  eq_str typeA folder_type = false ->
  eq_str typeB folder_type = false ->
  eq_str typeC folder_type = false ->
  exists tree w',
    get_folder_list (S (S depth)) (folders_url +:+ idRoot) quiet use_cookies w
      = (Ok (true, tree), w') /\
    get_directory_structure (S (S depth')) tree (root :: output) =
      Ok [(PNone, sub :: root :: output);
          (PStr idA, fileA :: sub :: root :: output);
          (PStr idB, fileB :: sub :: root :: output);
          (PStr idC, fileC :: root :: output)].
Proof.
  intros Hroot Hsub HA HB HC. eexists _, _. split.
  - rewrite (get_folder_list_served _ _ _ _ _ _ _ _ Hroot).
    erewrite for_rows_folder.
    2:{ erewrite get_folder_list_served.
        2:{ rewrite printed_client, fetched_client. exact Hsub. }
        rewrite (for_rows_file _ _ _ _ _ _ _ _ _ _ HA).
        rewrite (for_rows_file _ _ _ _ _ _ _ _ _ _ HB).
        cbn [for_rows ret]. reflexivity. }
    rewrite (for_rows_file _ _ _ _ _ _ _ _ _ _ HC).
    cbn [for_rows ret]. reflexivity.
  - cbn -[eq_str]. rewrite eq_str_folder_type.
    cbn -[eq_str]. rewrite HA.
    cbn -[eq_str]. rewrite HB.
    cbn -[eq_str]. rewrite HC.
    reflexivity.
Qed.

End Plans.

(** ** The synthetic site *)

Section OnTheFixture.
Import Fixture.

(** C1 fails as stated: on the two-level tree the directory structure has
    four entries and does not start with the root's directory, and a run
    of [download_folder] makes no call that creates it. *)
Lemma root_directory_not_planned :
  get_folder_list 1000 root_url true false w0
    = (Ok (true, root_tree), snd (get_folder_list 1000 root_url true false w0)) /\
  get_directory_structure 1000 root_tree ["root"; "work"] = Ok root_plan /\
  get_directory_structure 1000 root_tree ["root"; "work"]
    <> Ok ((PNone, ["root"; "work"]) :: root_plan) /\
  ~ In (EvMkdir ["root"; "work"])
       (trace (snd (download_folder 1000 root_url None true None None true w0))).
Proof.
  split; [vm_compute; reflexivity|].
  split; [vm_compute; reflexivity|].
  split; [vm_compute; discriminate|].
  vm_compute. intros H.
  repeat (destruct H as [H | H]; [discriminate H|]). exact H.
Qed.

Lemma two_level_plan_witness :
  exists tree w',
    get_folder_list 2 root_url true false w0 = (Ok (true, tree), w') /\
    get_directory_structure 2 tree ["root"; "work"] = Ok root_plan.
Proof.
  apply (two_level_plan (P := platform) 0 0 true false w0 ["work"]
           "idRoot" "root" "idSub" "sub" (PStr "sub")
           "idA" "fileA" (PStr "image/png") "idB" "fileB" (PStr "text/plain")
           "idC" "fileC" (PStr "text/plain") ["NID"] ["NID"]).
  - eexists. split; [reflexivity|]. split; reflexivity.
  - eexists. split; [reflexivity|]. split; reflexivity.
  - reflexivity.
  - reflexivity.
  - reflexivity.
Defined.

(** C2 fails as stated: for the listing with a null first element the
    directory structure is empty, not the single entry of the root's
    directory, and a run of [download_folder] only fetches the page. *)
Lemma null_listing_plans_nothing :
  exists tree w',
    get_folder_list 1000 empty_url true false w0 = (Ok (true, tree), w') /\
    getkey tree "file_contents" = Ok (PList []) /\
    get_directory_structure 1000 tree ["empty"; "work"] = Ok [] /\
    get_directory_structure 1000 tree ["empty"; "work"]
      <> Ok [(PNone, ["empty"; "work"])] /\
    trace (snd (download_folder 1000 empty_url None true None None true w0))
      = [EvGet empty_url (Ok 200%Z); EvCookiesClear].
Proof.
  eexists _, _. split; [vm_compute; reflexivity|].
  split; [reflexivity|]. split; [reflexivity|].
  split; [vm_compute; discriminate | vm_compute; reflexivity].
Qed.

Lemma null_listing_empty_plan_witness :
  let tree := entry (PStr "empty") (PStr "idEmpty") (PStr folder_type) (PList []) in
  get_folder_list 1 empty_url true false w0
    = (Ok (true, tree), fetched empty_url false ["NID"] w0) /\
  (forall output, get_directory_structure 1 tree ("empty" :: output) = Ok []) /\
  (forall output proxy speed,
      let out := download_folder 1 empty_url output true proxy speed false w0 in
      fst out = Ok true /\
      trace (snd out) = trace w0 ++ [EvGet empty_url (Ok 200%Z); EvCookiesClear] /\
      disk (snd out) = disk w0).
Proof.
  apply (null_listing_empty_plan (P := platform) 0 0 empty_url true false w0
           (site empty_url) ["NID"] [PInt 0] "empty").
  - reflexivity.
  - reflexivity.
  - exists "EMPTY", "EMPTY". split; [reflexivity|]. split; reflexivity.
  - exists "empty - Google Drive". split; reflexivity.
Defined.

Lemma failed_fetch_no_tree_witness :
  fst (get_folder_list 1000 broken_url true false w0) = Ok (false, PNone).
Proof.
  apply (failed_fetch_no_tree (P := platform) 1000 broken_url true false w0
           [EvGet broken_url (Ok 200%Z); EvCookiesClear;
            EvGet (folders_url +:+ "idGone") (Ok 404%Z)]).
  - vm_compute. reflexivity.
  - right. right. left. simpl. lia.
Defined.

Lemma failed_download_aborts_witness :
  exists evs w2,
    for_files true None None false true root_plan w0 = (Ok false, w2) /\
    Forall2 (performs true None None false)
            [(PNone, ["sub"; "root"; "work"]);
             (PStr "idA", ["fileA"; "sub"; "root"; "work"])] evs /\
    trace w2 = trace w0 ++ evs ++
               [EvDownload (files_url +:+ "idB") ["fileB"; "sub"; "root"; "work"]
                           true None None false (Ok false)] /\
    disk w2 = <[["fileA"; "sub"; "root"; "work"] := File (files_url +:+ "idA")]>
                (snd (Path_mkdir ["sub"; "root"; "work"] ∅)) /\
    client w2 = client w0.
Proof.
  pose (pre := [(PNone, ["sub"; "root"; "work"]);
                (PStr "idA", ["fileA"; "sub"; "root"; "work"])]).
  pose (w1 := match rounds (P := platform) true None None false true pre w0 with
              | Some (_, w) => w
              | None => w0
              end).
  apply (failed_download_aborts (P := platform) true None None false pre
           (PStr "idB") ["fileB"; "sub"; "root"; "work"]
           [(PStr "idC", ["fileC"; "root"; "work"])] w0 true w1
           (files_url +:+ "idB")
           (<[["fileA"; "sub"; "root"; "work"] := File (files_url +:+ "idA")]>
              (snd (Path_mkdir ["sub"; "root"; "work"] ∅)))).
  - vm_compute. reflexivity.
  - reflexivity.
  - reflexivity.
  - vm_compute. reflexivity.
Defined.

Lemma short_row_fails_witness :
  exists e,
    parse_listing unicode_escape json_loads
                  (BeautifulSoup (text (site (folders_url +:+ "idShort")))) = Raise e /\
    (forall file_name,
        titled (BeautifulSoup (text (site (folders_url +:+ "idShort")))) file_name ->
        Forall is_array [row "idC" "fileC" "text/plain"; PList [PStr "idX"; PNone]] ->
        e = IndexError "list index out of range").
Proof.
  apply (short_row_fails (P := platform)
           (BeautifulSoup (text (site (folders_url +:+ "idShort"))))
           [row "idC" "fileC" "text/plain"; PList [PStr "idX"; PNone]] []).
  - exists "SHORT", "SHORT". split; [reflexivity|]. split; reflexivity.
  - right. left. exists [PStr "idX"; PNone]. split; [reflexivity | simpl; lia].
Defined.

Lemma kinds_and_children_witness : kind_invariant fileA.
Proof.
  apply (kinds_and_children (P := platform) 1000 root_url true false w0 root_tree
           (snd (get_folder_list 1000 root_url true false w0)) fileA).
  - vm_compute. reflexivity.
  - apply (node_descendant root_tree [sub_tree; fileC] sub_tree);
      [reflexivity | left; reflexivity |].
    apply (node_descendant sub_tree [fileA; fileB] fileA);
      [reflexivity | left; reflexivity |].
    apply node_root.
Defined.

Lemma return_shapes_witness :
  (true = true /\ folder_dict root_url root_tree) \/
  (true = false /\ root_tree = PNone).
Proof.
  apply (return_shapes (P := platform) 1000 root_url true false w0 true root_tree
           (snd (get_folder_list 1000 root_url true false w0))).
  vm_compute. reflexivity.
Defined.


End OnTheFixture.

(** * Further properties *)

(** ** What a run of [get_folder_list] may do to the world *)

Section ListingSteps.
Context `{P : Platform}.
Variable R : World -> World -> Prop.
Variables (quiet use_cookies : bool).
Hypothesis R_refl : forall w, R w w.
Hypothesis R_trans : forall a b c, R a b -> R b c -> R a c.
Hypothesis R_print : forall args w, quiet = false -> R w (snd (print args w)).
Hypothesis R_get : forall url w, R w (snd (get url w)).
Hypothesis R_clear : forall w, use_cookies = false -> R w (snd (clear_cookies w)).

Lemma printed_step args w : R w (printed quiet args w).
Proof using R_refl R_print.
  unfold printed. destruct quiet eqn:Hq; simpl; [apply R_refl|].
  apply (R_print args w). reflexivity.
Qed.

Lemma for_rows_steps recurse file_name file_id :
  (forall url w, R w (snd (recurse url w))) ->
  forall rows return_code file_contents w,
    R w (snd (for_rows recurse quiet file_name file_id return_code
                       file_contents rows w)).
Proof using R_refl R_trans R_print.
  intros Hrec. induction rows as [|[[row_id row_name] row_type] rows IH];
    intros rc acc w; cbn [for_rows].
  - apply R_refl.
  - destruct (eq_str row_type folder_type); cbn [negb].
    + unfold bind at 1. rewrite when_print.
      apply (R_trans _ (printed quiet [PStr "Retrieving folder"; row_id; row_name] w));
        [apply printed_step|].
      unfold bind at 1. unfold lift.
      destruct (str_add folders_url row_id) as [url|e]; [|apply R_refl].
      unfold bind at 1.
      pose proof (Hrec url (printed quiet [PStr "Retrieving folder"; row_id; row_name] w))
        as Hstep.
      destruct (recurse url _) as [[[[|] fl]|e] w1]; simpl in Hstep.
      * apply (R_trans _ _ _ Hstep). apply IH.
      * exact Hstep.
      * exact Hstep.
    + unfold bind at 1. rewrite when_print.
      apply (R_trans _ (printed quiet [PStr "Processing file"; row_id; row_name] w));
        [apply printed_step|].
      destruct rc; cbn [negb]; [apply IH | apply R_refl].
Qed.

Lemma get_folder_list_steps depth :
  forall folder w, R w (snd (get_folder_list depth folder quiet use_cookies w)).
Proof using R_refl R_trans R_print R_get R_clear.
  induction depth as [|depth IH]; intros folder w; cbn [get_folder_list].
  - apply R_refl.
  - unfold bind at 1.
    pose proof (R_get folder w) as Hget.
    destruct (get folder w) as [[folder_page|e] w1]; simpl in Hget; [|exact Hget].
    apply (R_trans _ _ _ Hget).
    destruct (status_code folder_page =? 200)%Z; cbn [negb]; [|apply R_refl].
    unfold bind at 1.
    assert (Hclear : R w1 (snd (when (negb use_cookies) clear_cookies w1))).
    { destruct use_cookies eqn:Huc; simpl; [apply R_refl|].
      apply (R_clear w1). reflexivity. }
    destruct (when (negb use_cookies) clear_cookies w1) as [[[]|e] w2] eqn:Hw2;
      simpl in Hclear; [|exact Hclear].
    apply (R_trans _ _ _ Hclear).
    unfold bind at 1. unfold lift.
    destruct (parse_listing unicode_escape json_loads
                            (BeautifulSoup (text folder_page)))
      as [[file_name rows]|e]; [|apply R_refl].
    apply for_rows_steps. intros url w'. apply IH.
Qed.

End ListingSteps.

Section ListingFrame.
Context `{P : Platform}.

(** X1: a run of [get_folder_list] leaves the disk as it is, and the calls
    it makes are page fetches and clearings of the cookie jar only; with
    [use_cookies=True] the jar is never cleared. *)
Theorem get_folder_list_frame depth folder quiet use_cookies w :
  let out := get_folder_list depth folder quiet use_cookies w in
  disk (snd out) = disk w /\
  exists evs, trace (snd out) = trace w ++ evs /\
              Forall (listing_event use_cookies) evs.
Proof.
  cbv zeta.
  apply (get_folder_list_steps
           (fun w w' => disk w' = disk w /\
                        exists evs, trace w' = trace w ++ evs /\
                                    Forall (listing_event use_cookies) evs)
           quiet use_cookies).
  - intros w0. split; [reflexivity|]. exists []. rewrite app_nil_r.
    split; [reflexivity | constructor].
  - intros a b c [Hd1 (e1 & Ht1 & He1)] [Hd2 (e2 & Ht2 & He2)].
    split; [congruence|]. exists (e1 ++ e2). split.
    + rewrite Ht2, Ht1, <- app_assoc. reflexivity.
    + apply Forall_app. split; assumption.
  - intros args w0 _. split; [reflexivity|]. exists []. simpl.
    rewrite app_nil_r. split; [reflexivity | constructor].
  - intros url w0. unfold get.
    destruct (client_get url (client w0)) as [r s]. simpl.
    split; [reflexivity|]. eexists [_]. split; [reflexivity|].
    repeat constructor.
  - intros w0 Huc. simpl. split; [reflexivity|]. exists [EvCookiesClear].
    split; [reflexivity|]. repeat constructor. exact Huc.
Qed.

(** X2: with [quiet=True] a run of [get_folder_list] prints nothing. *)
Theorem get_folder_list_quiet depth folder use_cookies w :
  stdout (snd (get_folder_list depth folder true use_cookies w)) = stdout w.
Proof.
  apply (get_folder_list_steps (fun w w' => stdout w' = stdout w)
                               true use_cookies).
  - reflexivity.
  - intros a b c H1 H2. congruence.
  - intros args w0 Hq. discriminate.
  - intros url w0. unfold get.
    destruct (client_get url (client w0)) as [r s]. reflexivity.
  - intros w0 _. reflexivity.
Qed.

End ListingFrame.

(** ** What a run of [download_folder] may do to the world *)

Section RunSteps.
Context `{P : Platform}.
Variable R : World -> World -> Prop.
Variables (quiet : bool) (proxy : Proxy) (speed : Speed) (use_cookies : bool).
Hypothesis R_refl : forall w, R w w.
Hypothesis R_trans : forall a b c, R a b -> R b c -> R a c.
Hypothesis R_print : forall args w, quiet = false -> R w (snd (print args w)).
Hypothesis R_get : forall url w, R w (snd (get url w)).
Hypothesis R_clear : forall w, R w (snd (clear_cookies w)).
Hypothesis R_mkdir : forall file_path w, R w (snd (mkdir file_path w)).
Hypothesis R_fetch :
  forall id output w,
    R w (snd (fetch (files_url +:+ id) output quiet proxy speed use_cookies w)).

Lemma respects_ret {A} (a : A) : respects R (ret a).
Proof using R_refl. intros w. apply R_refl. Qed.

Lemma respects_lift {A} (r : Result A) : respects R (lift r).
Proof using R_refl. intros w. apply R_refl. Qed.

Lemma respects_bind {A B} (m : M A) (k : A -> M B) :
  respects R m -> (forall a, respects R (k a)) -> respects R (bind m k).
Proof using R_trans.
  intros Hm Hk w. unfold bind. pose proof (Hm w) as Hw.
  destruct (m w) as [[a|e] w1]; simpl in Hw; [|exact Hw].
  apply (R_trans _ _ _ Hw). apply Hk.
Qed.

Lemma respects_print args : respects R (when (negb quiet) (print args)).
Proof using R_refl R_print.
  intros w. destruct (negb quiet) eqn:Hq; simpl; [|apply R_refl].
  apply (R_print args w). apply negb_true_iff. exact Hq.
Qed.

Lemma respects_download_entry return_code item :
  respects R (download_entry quiet proxy speed use_cookies return_code item).
Proof using R_refl R_trans R_print R_mkdir R_fetch.
  destruct item as [file_id file_path]. unfold download_entry.
  destruct (is_None file_id).
  - apply respects_bind; [exact (R_mkdir file_path) | intros; apply respects_ret].
  - destruct file_id; cbn [str_add];
      try (intros w; unfold bind, lift; simpl; apply R_refl).
    intros w. unfold bind at 1. unfold lift. unfold bind.
    pose proof (R_fetch s file_path w) as Hf.
    destruct (fetch (files_url +:+ s) file_path quiet proxy speed use_cookies w)
      as [[[|]|e] w1]; simpl in Hf |- *; try exact Hf.
    pose proof (respects_print [PStr "Download ended unsuccessfully"] w1) as Hp.
    destruct (when (negb quiet) (print [PStr "Download ended unsuccessfully"]) w1)
      as [[[]|e] w2]; simpl in Hp |- *; apply (R_trans _ _ _ Hf Hp).
Qed.

Lemma respects_for_files plan :
  forall return_code,
    respects R (for_files quiet proxy speed use_cookies return_code plan).
Proof using R_refl R_trans R_print R_mkdir R_fetch.
  induction plan as [|item plan IH]; intros rc; cbn [for_files].
  - apply respects_bind; [|intros; apply respects_ret].
    intros w. destruct (rc && negb quiet) eqn:Hb; simpl; [|apply R_refl].
    apply R_print. apply andb_true_iff in Hb as [_ Hb].
    apply negb_true_iff. exact Hb.
  - apply respects_bind; [apply respects_download_entry|].
    intros [rc'|rc']; [apply IH | apply respects_ret].
Qed.

Lemma respects_get_folder_list depth folder uc :
  respects R (get_folder_list depth folder quiet uc).
Proof using R_refl R_trans R_print R_get R_clear.
  intros w. apply get_folder_list_steps; auto.
Qed.

Lemma respects_download_folder depth folder output :
  respects R (download_folder depth folder output quiet proxy speed use_cookies).
Proof using R_refl R_trans R_print R_get R_clear R_mkdir R_fetch.
  unfold download_folder.
  apply respects_bind; [apply respects_print|]. intros _.
  apply respects_bind; [apply respects_get_folder_list|].
  intros [return_code folder_list]. unfold download_listed.
  destruct return_code; cbn [negb]; [|apply respects_ret].
  apply respects_bind.
  { unfold when. destruct (negb quiet) eqn:Hq; [|apply respects_ret].
    apply negb_true_iff in Hq.
    apply respects_bind; [|intros _]; intros w; apply R_print; exact Hq. }
  intros _.
  apply respects_bind; [apply respects_lift|]. intros name.
  apply respects_bind; [apply respects_lift|]. intros root.
  apply respects_bind; [apply respects_lift|]. intros ds.
  apply respects_bind; [apply respects_print|]. intros _.
  apply respects_for_files.
Qed.

End RunSteps.

Section RunFrame.
Context `{P : Platform}.

(** X3: with [quiet=True] a run of [download_folder] prints nothing of its
    own. *)
Theorem download_folder_quiet depth folder output proxy speed use_cookies w :
  stdout (snd (download_folder depth folder output true proxy speed use_cookies w))
  = stdout w.
Proof.
  apply (respects_download_folder (fun w w' => stdout w' = stdout w)
                                  true proxy speed use_cookies).
  - reflexivity.
  - intros a b c H1 H2. congruence.
  - intros args w0 Hq. discriminate.
  - intros url w0. unfold get.
    destruct (client_get url (client w0)) as [r s]. reflexivity.
  - intros w0. reflexivity.
  - intros file_path w0. unfold mkdir.
    destruct (Path_mkdir file_path (disk w0)) as [r fs]. reflexivity.
  - intros id output0 w0. unfold fetch.
    destruct (download (files_url +:+ id) output0 true proxy speed use_cookies
                       (disk w0)) as [r fs]. reflexivity.
Qed.

(** X4: every call a run of [download_folder] makes is a page fetch, a
    clearing of the cookie jar, a directory creation or a download, and
    every download is given the URL [files_url + id] of some id together
    with the caller's [quiet], [proxy], [speed] and [use_cookies]. *)
Theorem download_folder_calls depth folder output quiet proxy speed use_cookies w :
  exists evs,
    trace (snd (download_folder depth folder output quiet proxy speed
                                use_cookies w)) = trace w ++ evs /\
    Forall (run_event quiet proxy speed use_cookies) evs.
Proof.
  apply (respects_download_folder
           (fun w w' => exists evs, trace w' = trace w ++ evs /\
                                    Forall (run_event quiet proxy speed use_cookies) evs)
           quiet proxy speed use_cookies).
  - intros w0. exists []. rewrite app_nil_r. split; [reflexivity | constructor].
  - intros a b c (e1 & Ht1 & He1) (e2 & Ht2 & He2). exists (e1 ++ e2). split.
    + rewrite Ht2, Ht1, <- app_assoc. reflexivity.
    + apply Forall_app. split; assumption.
  - intros args w0 _. exists []. simpl. rewrite app_nil_r.
    split; [reflexivity | constructor].
  - intros url w0. unfold get.
    destruct (client_get url (client w0)) as [r s]. simpl.
    eexists [_]. split; [reflexivity|]. repeat constructor.
  - intros w0. exists [EvCookiesClear]. split; [reflexivity|]. repeat constructor.
  - intros file_path w0. unfold mkdir.
    destruct (Path_mkdir file_path (disk w0)) as [r fs]. simpl.
    eexists [_]. split; [reflexivity|]. repeat constructor.
  - intros id output0 w0. unfold fetch.
    destruct (download (files_url +:+ id) output0 quiet proxy speed use_cookies
                       (disk w0)) as [r fs]. simpl.
    eexists [_]. split; [reflexivity|]. constructor; [|constructor].
    simpl. split; [exists id; reflexivity | repeat split].
Qed.

End RunFrame.

(** ** [quiet] and the listing *)

Section Quiet.
Context `{P : Platform}.

Lemma agree_ret {A} (a : A) : agree (ret a) (ret a).
Proof. intros w1 w2 H. split; [reflexivity | exact H]. Qed.

Lemma agree_lift {A} (r : Result A) : agree (lift r) (lift r).
Proof. intros w1 w2 H. split; [reflexivity | exact H]. Qed.

Lemma agree_bind {A B} (m1 m2 : M A) (k1 k2 : A -> M B) :
  agree m1 m2 -> (forall a, agree (k1 a) (k2 a)) ->
  agree (bind m1 k1) (bind m2 k2).
Proof.
  intros Hm Hk w1 w2 H. destruct (Hm w1 w2 H) as [Hr Hs]. unfold bind.
  destruct (m1 w1) as [[a|e] w1'], (m2 w2) as [[a'|e'] w2']; simpl in Hr, Hs;
    try discriminate.
  - injection Hr as <-. apply Hk. exact Hs.
  - injection Hr as <-. split; [reflexivity | exact Hs].
Qed.

Lemma agree_print q1 q2 args1 args2 :
  agree (when (negb q1) (print args1)) (when (negb q2) (print args2)).
Proof.
  intros w1 w2 (Hc & Hd & Ht). rewrite !when_print. simpl. split; [reflexivity|].
  unfold same_but_stdout.
  rewrite !printed_client, !printed_disk, !printed_trace. auto.
Qed.

Lemma agree_get url : agree (get url) (get url).
Proof.
  intros w1 w2 (Hc & Hd & Ht). unfold get. rewrite Hc.
  destruct (client_get url (client w2)) as [r s]. simpl.
  split; [reflexivity|]. unfold same_but_stdout. simpl.
  rewrite Ht. auto.
Qed.

Lemma agree_clear b : agree (when b clear_cookies) (when b clear_cookies).
Proof.
  intros w1 w2 (Hc & Hd & Ht). destruct b; simpl.
  - split; [reflexivity|]. unfold same_but_stdout. simpl. rewrite Hc, Ht. auto.
  - split; [reflexivity|]. repeat split; assumption.
Qed.

Lemma agree_for_rows recurse1 recurse2 q1 q2 file_name file_id :
  (forall url, agree (recurse1 url) (recurse2 url)) ->
  forall rows return_code file_contents,
    agree (for_rows recurse1 q1 file_name file_id return_code file_contents rows)
          (for_rows recurse2 q2 file_name file_id return_code file_contents rows).
Proof.
  intros Hrec. induction rows as [|[[row_id row_name] row_type] rows IH];
    intros rc acc; cbn [for_rows].
  - apply agree_ret.
  - destruct (eq_str row_type folder_type); cbn [negb].
    + apply agree_bind; [apply agree_print|]. intros _.
      apply agree_bind; [apply agree_lift|]. intros url.
      apply agree_bind; [apply Hrec|]. intros [rc' fl].
      destruct rc'; cbn [negb]; [apply IH | apply agree_ret].
    + apply agree_bind; [apply agree_print|]. intros _.
      destruct rc; cbn [negb]; [apply IH | apply agree_ret].
Qed.

Lemma agree_get_folder_list depth :
  forall folder q1 q2 use_cookies,
    agree (get_folder_list depth folder q1 use_cookies)
          (get_folder_list depth folder q2 use_cookies).
Proof.
  induction depth as [|depth IH]; intros folder q1 q2 uc; cbn [get_folder_list].
  - intros w1 w2 H. split; [reflexivity | exact H].
  - apply agree_bind; [apply agree_get|]. intros folder_page.
    destruct (status_code folder_page =? 200)%Z; cbn [negb]; [|apply agree_ret].
    apply agree_bind; [apply agree_clear|]. intros _.
    apply agree_bind; [apply agree_lift|]. intros [file_name rows].
    apply agree_for_rows. intros url. apply IH.
Qed.

(** X5: [quiet] changes only what [get_folder_list] prints: two runs that
    differ in [quiet], from worlds that differ at most in what was printed,
    end with the same result, session, disk and calls. *)
Theorem quiet_changes_only_stdout depth folder q1 q2 use_cookies w1 w2 :
  same_but_stdout w1 w2 ->
  let out1 := get_folder_list depth folder q1 use_cookies w1 in
  let out2 := get_folder_list depth folder q2 use_cookies w2 in
  fst out1 = fst out2 /\ same_but_stdout (snd out1) (snd out2).
Proof. intros H. apply agree_get_folder_list. exact H. Qed.

End Quiet.

(** ** The outcome of [get_folder_list] and its page fetches *)

Section Outcome.
Context `{P : Platform}.

Lemma fetch_outcome_after pre evs r :
  ~ Exists failed_fetch pre -> fetch_outcome evs r -> fetch_outcome (pre ++ evs) r.
Proof.
  intros Hpre. destruct r as [[[|] fl]|e]; simpl.
  - rewrite Exists_app. tauto.
  - intros (p & url & st & -> & Hst & Hp). exists (pre ++ p), url, st.
    rewrite app_assoc. split; [reflexivity|]. split; [exact Hst|].
    rewrite Exists_app. tauto.
  - rewrite Exists_app. tauto.
Qed.

Lemma traced_after w w1 out pre :
  trace w1 = trace w ++ pre -> ~ Exists failed_fetch pre ->
  traced w1 out -> traced w out.
Proof.
  intros Ht Hpre (evs & Hevs & Hout). exists (pre ++ evs). split.
  - rewrite Hevs, Ht, <- app_assoc. reflexivity.
  - apply fetch_outcome_after; assumption.
Qed.

Lemma traced_here w (r : Result (bool * pyobj)) :
  fetch_outcome [] r -> traced w (r, w).
Proof. intros H. exists []. simpl. rewrite app_nil_r. auto. Qed.

Lemma no_failed_fetch_nil : ~ Exists failed_fetch [].
Proof. intros H. inversion H. Qed.

Lemma for_rows_traced recurse quiet file_name file_id :
  (forall url w, traced w (recurse url w)) ->
  forall rows file_contents w,
    traced w (for_rows recurse quiet file_name file_id true file_contents rows w).
Proof.
  intros Hrec. induction rows as [|[[row_id row_name] row_type] rows IH];
    intros acc w; cbn [for_rows].
  - apply traced_here. apply no_failed_fetch_nil.
  - destruct (eq_str row_type folder_type); cbn [negb].
    + unfold bind at 1. rewrite when_print.
      apply (traced_after w (printed quiet [PStr "Retrieving folder"; row_id; row_name] w) _ []);
        [rewrite printed_trace, app_nil_r; reflexivity | apply no_failed_fetch_nil |].
      unfold bind at 1. unfold lift.
      destruct (str_add folders_url row_id) as [url|e];
        [|apply traced_here; apply no_failed_fetch_nil].
      unfold bind at 1.
      destruct (Hrec url (printed quiet [PStr "Retrieving folder"; row_id; row_name] w))
        as (evs & Hevs & Hout).
      destruct (recurse url _) as [[[[|] fl]|e] w1]; simpl in Hevs, Hout.
      * apply (traced_after _ w1 _ evs Hevs Hout). apply IH.
      * exists evs. split; [exact Hevs | exact Hout].
      * exists evs. split; [exact Hevs | exact Hout].
    + unfold bind at 1. rewrite when_print.
      apply (traced_after w (printed quiet [PStr "Processing file"; row_id; row_name] w) _ []);
        [rewrite printed_trace, app_nil_r; reflexivity | apply no_failed_fetch_nil |].
      apply IH.
Qed.

(** X6: when [get_folder_list] returns [False], the last call of the run is
    a page fetch that did not answer 200, and no fetch before it failed:
    nothing is fetched after a failure.  When it returns [True] or raises,
    no fetch of the run failed. *)
Theorem get_folder_list_traced depth :
  forall folder quiet use_cookies w,
    traced w (get_folder_list depth folder quiet use_cookies w).
Proof.
  induction depth as [|depth IH]; intros folder quiet use_cookies w;
    cbn [get_folder_list].
  - apply traced_here. apply no_failed_fetch_nil.
  - unfold bind at 1. unfold get.
    destruct (client_get folder (client w)) as [[folder_page|e] s];
      cbv beta iota zeta.
    + set (w0 := emit (EvGet folder (Ok (status_code folder_page))) _).
      assert (Ht0 : trace w0
                    = trace w ++ [EvGet folder (Ok (status_code folder_page))])
        by reflexivity.
      clearbody w0.
      destruct (status_code folder_page =? 200)%Z eqn:Hstatus; cbn [negb].
      * apply (traced_after w w0 _ _ Ht0).
        { intros H. apply Exists_cons in H as [H | H]; [|inversion H].
          simpl in H. apply Z.eqb_eq in Hstatus. contradiction. }
        unfold bind at 1.
        destruct (when (negb use_cookies) clear_cookies w0)
          as [[[]|e] w1] eqn:Hclear.
        2:{ destruct use_cookies; discriminate. }
        apply (traced_after w0 w1 _ (if use_cookies then [] else [EvCookiesClear])).
        { destruct use_cookies; simpl in Hclear; inversion Hclear; simpl;
            [rewrite app_nil_r|]; reflexivity. }
        { destruct use_cookies; intros H;
            [|apply Exists_cons in H as [H | H]]; inversion H. }
        unfold bind at 1. unfold lift.
        destruct (parse_listing unicode_escape json_loads
                                (BeautifulSoup (text folder_page)))
          as [[file_name rows]|e]; [|apply traced_here; apply no_failed_fetch_nil].
        apply for_rows_traced. intros url w'. apply IH.
      * exists [EvGet folder (Ok (status_code folder_page))].
        split; [exact Ht0|]. simpl.
        exists [], folder, (status_code folder_page).
        split; [reflexivity|]. split; [|apply no_failed_fetch_nil].
        apply Z.eqb_neq. exact Hstatus.
    + eexists [_]. simpl. split; [reflexivity|].
      intros H. apply Exists_cons in H as [H | H]; inversion H.
Qed.

End Outcome.

(** ** The listing and its rows *)

Section RowsInOrder.
Context `{P : Platform}.

Lemma eq_str_true (o : pyobj) (s : string) : eq_str o s = true -> o = PStr s.
Proof.
  destruct o; simpl; try discriminate.
  intros H. apply String.eqb_eq in H. congruence.
Qed.

Lemma for_rows_entries recurse quiet file_name file_id :
  (forall url w folder_list w',
      recurse url w = (Ok (true, folder_list), w') -> folder_dict url folder_list) ->
  forall rows file_contents w tree w',
    for_rows recurse quiet file_name file_id true file_contents rows w
      = (Ok (true, tree), w') ->
    exists children,
      tree = entry file_name file_id (PStr folder_type)
                   (PList (file_contents ++ children)) /\
      Forall2 row_entry rows children.
Proof.
  intros Hrec. induction rows as [|[[row_id row_name] row_type] rows IH];
    intros acc w tree w'; cbn [for_rows].
  - intros [= <- <-]. exists []. rewrite app_nil_r. split; [reflexivity | constructor].
  - destruct (eq_str row_type folder_type) eqn:Htype; cbn [negb].
    + unfold bind at 1. rewrite when_print. unfold bind at 1. unfold lift.
      destruct row_id as [| | | |row_id| |]; cbn [str_add]; try discriminate.
      unfold bind at 1.
      destruct (recurse (folders_url +:+ row_id) _)
        as [[[[|] fl]|e] w1] eqn:Hcall; cbn [negb]; try discriminate.
      intros Hrest. destruct (IH _ _ _ _ Hrest) as (children & -> & Hch).
      exists (fl :: children). rewrite <- app_assoc. split; [reflexivity|].
      constructor; [|exact Hch]. unfold row_entry. rewrite Htype.
      destruct (Hrec _ _ _ _ Hcall) as (name & sub & -> & _).
      rewrite folder_id_of_url. apply eq_str_true in Htype. subst row_type.
      exists name, sub. reflexivity.
    + unfold bind at 1. rewrite when_print.
      intros Hrest. destruct (IH _ _ _ _ Hrest) as (children & -> & Hch).
      eexists (_ :: children). rewrite <- app_assoc. split; [reflexivity|].
      constructor; [|exact Hch]. unfold row_entry. rewrite Htype. reflexivity.
Qed.

(** X7: when the page of [folder] is served with the name [file_name] and
    the rows [rows] and the call returns [True], the dictionary carries that
    name and, in [file_contents], one entry per row in the order of the
    rows: a file row gives its own name, id and type with no contents, a
    folder row gives a folder dictionary with the row's id. *)
Theorem listing_follows_rows depth folder quiet use_cookies w file_name rows s
        tree w' :
  serves folder (client w) file_name rows s ->
  get_folder_list (S depth) folder quiet use_cookies w = (Ok (true, tree), w') ->
  exists children,
    tree = entry (PStr file_name) (PStr (str_from 39 folder)) (PStr folder_type)
                 (PList children) /\
    Forall2 row_entry rows children.
Proof.
  intros Hserves. rewrite (get_folder_list_served _ _ _ _ _ _ _ _ Hserves).
  intros Hrun. apply for_rows_entries in Hrun; [exact Hrun|].
  intros url w1 fl w1' Hcall.
  destruct (get_folder_list_listed depth url quiet use_cookies w1)
    as (evs & _ & Hout).
  rewrite Hcall in Hout. simpl in Hout. apply Hout.
Qed.

(** X8: a page that is served but does not parse makes the call raise the
    parser's error, after the cookie jar was cleared when [use_cookies] is
    off; it does not return [False]. *)
Theorem served_unparseable_raises depth folder quiet use_cookies w page s e :
  client_get folder (client w) = (Ok page, s) ->
  status_code page = 200%Z ->
  parse_listing unicode_escape json_loads (BeautifulSoup (text page)) = Raise e ->
  get_folder_list (S depth) folder quiet use_cookies w
    = (Raise e, fetched folder use_cookies s w).
Proof.
  intros Hget Hstatus Hparse.
  cbn [get_folder_list]. unfold bind at 1. unfold get. rewrite Hget.
  cbv beta iota zeta. rewrite Hstatus. cbn [Z.eqb Pos.eqb negb].
  unfold bind at 1. unfold fetched.
  destruct use_cookies; cbn [negb when ret clear_cookies snd];
    unfold bind at 1; unfold lift; rewrite Hparse; reflexivity.
Qed.

End RowsInOrder.

(** ** The return of [download_folder] *)

Section Returns.
Context `{P : Platform}.

(** X9: when the listing returns [False], [download_folder] returns
    [False] right after it: the disk is as before the call, and no
    directory is created and no download made. *)
Theorem failed_listing_downloads_nothing depth folder output quiet proxy speed
        use_cookies w folder_list :
  let w0 := printed quiet [PStr "Retrieving folder list"] w in
  let listing := get_folder_list depth folder quiet false w0 in
  fst listing = Ok (false, folder_list) ->
  download_folder depth folder output quiet proxy speed use_cookies w
    = (Ok false, snd listing) /\
  disk (snd listing) = disk w.
Proof.
  cbv zeta. intros Hlisting. split.
  - unfold download_folder. unfold bind at 1. rewrite when_print.
    unfold bind at 1.
    destruct (get_folder_list depth folder quiet false _) as [r w1].
    simpl in Hlisting. subst r. reflexivity.
  - rewrite <- (printed_disk quiet [PStr "Retrieving folder list"] w).
    apply (get_folder_list_steps (fun w w' => disk w' = disk w) quiet false).
    + reflexivity.
    + intros a b c H1 H2. congruence.
    + intros args w1 _. reflexivity.
    + intros url w1. unfold get.
      destruct (client_get url (client w1)) as [r s]. reflexivity.
    + intros w1 _. reflexivity.
Qed.

Lemma download_entry_return quiet proxy speed use_cookies return_code item w rc w' :
  download_entry quiet proxy speed use_cookies return_code item w
    = (Ok (Return rc), w') -> rc = false.
Proof.
  destruct item as [file_id file_path]. unfold download_entry.
  destruct (is_None file_id).
  - unfold bind, mkdir, ret.
    destruct (Path_mkdir file_path (disk w)) as [[u|e] fs1]; discriminate.
  - unfold bind, lift, fetch, ret, when.
    destruct (str_add files_url file_id) as [url|e]; [|discriminate].
    destruct (download url file_path quiet proxy speed use_cookies (disk w))
      as [[[|]|e] fs1]; simpl; try discriminate.
    destruct quiet; simpl; intros [= <- _]; reflexivity.
Qed.

Lemma for_files_true quiet proxy speed use_cookies plan :
  forall return_code w w',
    for_files quiet proxy speed use_cookies return_code plan w = (Ok true, w') ->
    exists evs,
      Forall2 (performs quiet proxy speed use_cookies) plan evs /\
      trace w' = trace w ++ evs.
Proof.
  induction plan as [|item plan IH]; intros rc w w'.
  - simpl. unfold bind, when, ret, print.
    destruct (rc && negb quiet); simpl; intros [= _ <-]; exists [];
      simpl; rewrite app_nil_r; (split; [constructor | reflexivity]).
  - rewrite for_files_cons.
    destruct (download_entry quiet proxy speed use_cookies rc item w)
      as [[[rc1|rc1]|e] w1] eqn:Hround; try discriminate.
    + intros Hrest.
      destruct (download_entry_continue _ _ _ _ _ _ _ _ _ Hround)
        as (ev & Hev & Ht & _).
      destruct (IH _ _ _ Hrest) as (evs & Hevs & Ht').
      exists (ev :: evs). split; [constructor; assumption|].
      rewrite Ht', Ht, <- app_assoc. reflexivity.
    + intros [= -> _]. apply download_entry_return in Hround. discriminate.
Qed.

(** X10: when [download_folder] returns [True], the directory structure
    was computed and every entry of it was carried out, in order: a
    directory creation for an entry without id, and for any other entry a
    download of [files_url + id] that returned [True]. *)
Theorem true_return_all_performed depth folder output quiet proxy speed
        use_cookies w w' :
  download_folder depth folder output quiet proxy speed use_cookies w
    = (Ok true, w') ->
  exists directory_structure w2 evs,
    plan_of depth folder output quiet w = (Ok (true, directory_structure), w2) /\
    Forall2 (performs quiet proxy speed use_cookies) directory_structure evs /\
    trace w' = trace w2 ++ evs.
Proof.
  rewrite download_folder_plan.
  destruct (plan_of depth folder output quiet w) as [[[rc ds]|e] w2] eqn:Hplan;
    [|discriminate].
  intros Hrun. destruct rc.
  - destruct (for_files_true _ _ _ _ _ _ _ _ Hrun) as (evs & Hevs & Ht).
    exists ds, w2, evs. auto.
  - exfalso. revert Hplan. unfold plan_of, bind, lift, ret.
    destruct (when (negb quiet) (print [PStr "Retrieving folder list"]) w)
      as [[[]|e0] w0]; [|discriminate].
    destruct (get_folder_list depth folder quiet false w0)
      as [[[[|] folder_list]|e] w1]; cbn [negb]; try discriminate.
    + repeat (break_match; try discriminate).
    + intros [= <- <-]. simpl in Hrun. unfold bind, when, ret in Hrun.
      simpl in Hrun. discriminate.
Qed.

(** X11: when the rounds of the entries before one all go through and
    the round of that entry raises (a directory that cannot be created, an
    id that is not a string, a download that raises), the loop ends with
    that exception in the world the round left; the entries after it are
    not run. *)
Theorem raising_round_aborts quiet proxy speed use_cookies pre item post w
        rc1 w1 e w2 :
  rounds quiet proxy speed use_cookies true pre w = Some (rc1, w1) ->
  download_entry quiet proxy speed use_cookies rc1 item w1 = (Raise e, w2) ->
  for_files quiet proxy speed use_cookies true (pre ++ item :: post) w
    = (Raise e, w2).
Proof.
  intros Hpre Hround.
  rewrite (for_files_app _ _ _ _ _ _ _ _ _ _ Hpre).
  rewrite for_files_cons, Hround. reflexivity.
Qed.

End Returns.

(** ** Trees and their directory structure *)

Section TreePlans.
Context `{P : Platform}.

Lemma flatten_folder previous_path file_name file_id children :
  flatten previous_path (TFolder file_name file_id children) =
  (let? inner := flatten_all (file_name :: previous_path) children in
   Ok ((PNone, file_name :: previous_path) :: inner)).
Proof.
  cbn [flatten]. f_equal.
  induction children as [|c cs IH]; [reflexivity|].
  cbn [flatten_all]. rewrite <- IH. reflexivity.
Qed.

Lemma for_contents_trees recurse previous_path :
  forall children directory_structure,
    forallb typed children = true ->
    (forall file_name file_id cs,
        In (TFolder file_name file_id cs) children ->
        recurse (to_dict (TFolder file_name file_id cs)) (file_name :: previous_path)
        = flatten_all (file_name :: previous_path) cs) ->
    for_contents recurse previous_path directory_structure (map to_dict children)
    = (let? r := flatten_all previous_path children in
       Ok (directory_structure ++ r)).
Proof.
  induction children as [|c children IH]; intros acc Htyped Hrec.
  - simpl. rewrite app_nil_r. reflexivity.
  - simpl in Htyped. apply andb_true_iff in Htyped as [Hc Hcs].
    assert (Hrec' : forall file_name file_id cs,
               In (TFolder file_name file_id cs) children ->
               recurse (to_dict (TFolder file_name file_id cs))
                       (file_name :: previous_path)
               = flatten_all (file_name :: previous_path) cs).
    { intros n i cs Hin. apply Hrec. right. exact Hin. }
    destruct c as [name id type | name id cs].
    + simpl in Hc. apply negb_true_iff in Hc.
      cbn -[eq_str]. rewrite Hc. cbn -[eq_str].
      destruct (path_div previous_path name) as [path|e]; [|reflexivity].
      cbn -[eq_str]. rewrite (IH _ Hcs Hrec').
      destruct (flatten_all previous_path children) as [r|e]; [|reflexivity].
      simpl. rewrite <- app_assoc. reflexivity.
    + cbn [map for_contents].
      replace (getkey (to_dict (TFolder name id cs)) "file_type")
        with (Ok (PStr folder_type)) by reflexivity.
      replace (getkey (to_dict (TFolder name id cs)) "file_name")
        with (Ok (PStr name)) by reflexivity.
      cbn [ResultMonad.bind path_div]. rewrite eq_str_folder_type.
      rewrite (Hrec name id cs (or_introl eq_refl)).
      cbn [flatten_all]. rewrite flatten_folder.
      destruct (flatten_all (name :: previous_path) cs) as [inner|e];
        [|reflexivity].
      cbn [ResultMonad.bind]. rewrite (IH _ Hcs Hrec').
      destruct (flatten_all previous_path children) as [r|e]; [|reflexivity].
      simpl. rewrite <- !app_assoc. reflexivity.
Qed.

Lemma children_height_le children d :
  fold_right (fun c m => Nat.max (height c) m) 0 children <= d <->
  Forall (fun c => height c <= d) children.
Proof.
  induction children as [|c children IH]; simpl.
  - split; [constructor | lia].
  - rewrite Forall_cons, <- IH. lia.
Qed.

Lemma get_directory_structure_tree depth :
  forall file_name file_id children previous_path,
    typed (TFolder file_name file_id children) = true ->
    height (TFolder file_name file_id children) <= depth ->
    get_directory_structure depth (to_dict (TFolder file_name file_id children))
                            previous_path
    = flatten_all previous_path children.
Proof.
  induction depth as [|depth IH]; intros name id children p Htyped Hheight.
  - simpl in Hheight. lia.
  - cbn [get_directory_structure]. cbn [to_dict entry getkey dict_get].
    cbn. rewrite for_contents_trees.
    + destruct (flatten_all p children); reflexivity.
    + exact Htyped.
    + intros n i cs Hin. apply IH.
      * simpl in Htyped. rewrite forallb_forall in Htyped.
        apply (Htyped _ Hin).
      * simpl in Hheight. apply le_S_n in Hheight.
        apply children_height_le in Hheight. rewrite Forall_forall in Hheight.
        apply Hheight. apply list_elem_of_In. exact Hin.
Qed.

(** X12: on the dictionary of a tree whose file entries do not bear the
    folder type, and with a depth no less than the height of the tree,
    [get_directory_structure] returns what the traversal of the children
    gives: for each child in order, a folder's own directory followed by
    the entries below it, or a file's id and path; it raises where a file
    name cannot be joined to the path, and the root itself has no entry. *)
Theorem directory_structure_is_preorder depth file_name file_id children
        previous_path :
  typed (TFolder file_name file_id children) = true ->
  height (TFolder file_name file_id children) <= depth ->
  get_directory_structure depth (to_dict (TFolder file_name file_id children))
                          previous_path
  = flatten_all previous_path children.
Proof. apply get_directory_structure_tree. Qed.

End TreePlans.

Section ListingTrees.
Context `{P : Platform}.

Lemma for_rows_trees recurse quiet file_name file_id d :
  (forall url w folder_list w',
      recurse url w = (Ok (true, folder_list), w') ->
      exists name id cs,
        folder_list = to_dict (TFolder name id cs) /\
        height (TFolder name id cs) <= d /\ typed (TFolder name id cs) = true) ->
  forall rows ts w tree w',
    Forall (fun t => height t <= d /\ typed t = true) ts ->
    for_rows recurse quiet (PStr file_name) (PStr file_id) true
             (map to_dict ts) rows w = (Ok (true, tree), w') ->
    exists children,
      tree = to_dict (TFolder file_name file_id children) /\
      Forall (fun t => height t <= d /\ typed t = true) children.
Proof.
  intros Hrec. induction rows as [|[[row_id row_name] row_type] rows IH];
    intros ts w tree w' Hts; cbn [for_rows].
  - intros [= <- <-]. exists ts. split; [reflexivity | exact Hts].
  - destruct (eq_str row_type folder_type) eqn:Htype; cbn [negb].
    + unfold bind at 1. rewrite when_print. unfold bind at 1. unfold lift.
      destruct (str_add folders_url row_id) as [url|e]; [|discriminate].
      unfold bind at 1.
      destruct (recurse url _) as [[[[|] fl]|e] w1] eqn:Hcall; cbn [negb];
        try discriminate.
      destruct (Hrec _ _ _ _ Hcall) as (name & id & cs & -> & Hh & Ht).
      change [to_dict (TFolder name id cs)] with (map to_dict [TFolder name id cs]).
      rewrite <- List.map_app. apply IH.
      apply Forall_app. split; [exact Hts|]. constructor; [|constructor].
      split; assumption.
    + unfold bind at 1. rewrite when_print.
      change [entry row_name row_id row_type PNone]
        with (map to_dict [TFile row_name row_id row_type]).
      rewrite <- List.map_app. apply IH.
      apply Forall_app. split; [exact Hts|]. constructor; [|constructor].
      split; [simpl; lia|]. simpl. rewrite Htype. reflexivity.
Qed.

Lemma get_folder_list_tree depth :
  forall folder quiet use_cookies w tree w',
    get_folder_list depth folder quiet use_cookies w = (Ok (true, tree), w') ->
    exists file_name children,
      tree = to_dict (TFolder file_name (str_from 39 folder) children) /\
      height (TFolder file_name (str_from 39 folder) children) <= depth /\
      typed (TFolder file_name (str_from 39 folder) children) = true.
Proof.
  induction depth as [|depth IH]; intros folder quiet use_cookies w tree w';
    cbn [get_folder_list]; [discriminate|].
  unfold bind at 1.
  destruct (get folder w) as [[folder_page|e] w0]; [|discriminate].
  destruct (status_code folder_page =? 200)%Z; cbn [negb]; [|discriminate].
  unfold bind at 1.
  destruct (when (negb use_cookies) clear_cookies w0) as [[[]|e] w1];
    [|discriminate].
  unfold bind at 1. unfold lift.
  destruct (parse_listing unicode_escape json_loads
                          (BeautifulSoup (text folder_page)))
    as [[file_name rows]|e]; [|discriminate].
  intros Hrun.
  apply (for_rows_trees _ _ _ _ depth) with (ts := []) in Hrun.
  - destruct Hrun as (children & -> & Hch). exists file_name, children.
    split; [reflexivity|]. split.
    + simpl. apply le_n_S. apply children_height_le.
      eapply Forall_impl; [exact Hch|]. intros t [H _]. exact H.
    + simpl. apply forallb_forall. intros t Hin.
      rewrite Forall_forall in Hch. apply Hch. apply list_elem_of_In. exact Hin.
  - intros url w2 fl w2' Hcall.
    destruct (IH _ _ _ _ _ _ Hcall) as (name & cs & -> & Hh & Ht).
    exists name, (str_from 39 url), cs. auto.
  - constructor.
Qed.

(** X13: the dictionary a successful call returns is the dictionary of a
    tree: its id is the URL from the 40th character on, no file entry of it
    bears the folder type, and its height is at most the depth the call
    was given. *)
Theorem listing_is_a_tree depth folder quiet use_cookies w tree w' :
  get_folder_list depth folder quiet use_cookies w = (Ok (true, tree), w') ->
  exists file_name children,
    tree = to_dict (TFolder file_name (str_from 39 folder) children) /\
    height (TFolder file_name (str_from 39 folder) children) <= depth /\
    typed (TFolder file_name (str_from 39 folder) children) = true.
Proof. apply get_folder_list_tree. Qed.

(** X14: the depth that let the listing through lets the directory
    structure through: on the dictionary a successful call returns,
    [get_directory_structure] with the same depth never runs out of depth
    and returns the traversal of the tree's children under the given
    path. *)
Theorem planning_follows_listing depth folder quiet use_cookies w tree w' :
  get_folder_list depth folder quiet use_cookies w = (Ok (true, tree), w') ->
  exists file_name children,
    tree = to_dict (TFolder file_name (str_from 39 folder) children) /\
    forall previous_path,
      get_directory_structure depth tree previous_path
      = flatten_all previous_path children.
Proof.
  intros Hrun.
  destruct (get_folder_list_tree _ _ _ _ _ _ _ Hrun)
    as (name & children & -> & Hh & Ht).
  exists name, children. split; [reflexivity|]. intros p.
  apply get_directory_structure_tree; assumption.
Qed.

Lemma Tree_induction (Q : Tree -> Prop) :
  (forall file_name file_id file_type, Q (TFile file_name file_id file_type)) ->
  (forall file_name file_id children,
      Forall Q children -> Q (TFolder file_name file_id children)) ->
  forall t, Q t.
Proof.
  intros Hfile Hfolder. fix IH 1. intros [n i ty | n i cs].
  - apply Hfile.
  - apply Hfolder. induction cs as [|c cs IHcs]; constructor.
    + apply IH.
    + exact IHcs.
Qed.

Lemma flatten_named t :
  forall previous_path,
    named t = true ->
    exists plan, flatten previous_path t = Ok plan /\ length plan = nodes t.
Proof.
  induction t as [name id type | name id children IH] using Tree_induction;
    intros p Hnamed.
  - destruct name; try discriminate. eexists. split; reflexivity.
  - rewrite flatten_folder.
    assert (Hall : forall q, exists inner,
                 flatten_all q children = Ok inner /\
                 length inner = nodes_of_all children).
    { simpl in Hnamed. induction children as [|c cs IHcs]; intros q.
      - exists []. split; reflexivity.
      - simpl in Hnamed. apply andb_true_iff in Hnamed as [Hc Hcs].
        inversion IH as [|? ? Hc' Hcs']; subst.
        destruct (Hc' q Hc) as (a & Ha & Hla).
        destruct (IHcs Hcs' Hcs q) as (b & Hb & Hlb).
        exists (a ++ b). cbn [flatten_all]. rewrite Ha, Hb. simpl.
        split; [reflexivity|]. rewrite length_app, Hla, Hlb. reflexivity. }
    destruct (Hall (name :: p)) as (inner & Hinner & Hlen).
    rewrite Hinner. simpl. eexists. split; [reflexivity|].
    simpl. rewrite Hlen. reflexivity.
Qed.

Lemma flatten_all_named children :
  forall previous_path,
    forallb named children = true ->
    exists plan, flatten_all previous_path children = Ok plan /\
                 length plan = nodes_of_all children.
Proof.
  induction children as [|c cs IH]; intros p Hnamed.
  - exists []. split; reflexivity.
  - simpl in Hnamed. apply andb_true_iff in Hnamed as [Hc Hcs].
    destruct (flatten_named c p Hc) as (a & Ha & Hla).
    destruct (IH p Hcs) as (b & Hb & Hlb).
    exists (a ++ b). cbn [flatten_all]. rewrite Ha, Hb. simpl.
    split; [reflexivity|]. rewrite length_app, Hla, Hlb. reflexivity.
Qed.

(** X15: on the dictionary of a tree whose file entries have strings for
    names and do not bear the folder type, and with a depth no less than
    the height, [get_directory_structure] succeeds and returns exactly one
    entry for each node below the root. *)
Theorem one_entry_per_descendant depth file_name file_id children previous_path :
  typed (TFolder file_name file_id children) = true ->
  named (TFolder file_name file_id children) = true ->
  height (TFolder file_name file_id children) <= depth ->
  exists plan,
    get_directory_structure depth (to_dict (TFolder file_name file_id children))
                            previous_path = Ok plan /\
    length plan = nodes_of_all children.
Proof.
  intros Ht Hn Hh. rewrite (get_directory_structure_tree _ _ _ _ _ Ht Hh).
  apply flatten_all_named. exact Hn.
Qed.

End ListingTrees.

(** ** The two scanners *)

Section Scanners.

Lemma literal_body_escaped_upto n :
  forall g rest,
    String.length g <= n -> escaped g = true ->
    literal_body (g +:+ String quote rest) = Some g.
Proof.
  induction n as [|n IH]; intros g rest Hlen Hg.
  - destruct g; [reflexivity | simpl in Hlen; lia].
  - destruct g as [|c g]; [reflexivity|].
    simpl in Hg |- *. destruct (Ascii.eqb c quote); [discriminate|].
    destruct (Ascii.eqb c backslash).
    + destruct g as [|d g]; [discriminate|]. simpl.
      apply andb_true_iff in Hg as [Hd Hg]. apply negb_true_iff in Hd.
      rewrite Hd. rewrite IH; [reflexivity | simpl in Hlen; lia | exact Hg].
    + rewrite IH; [reflexivity | simpl in Hlen; lia | exact Hg].
Qed.

Lemma literal_body_escaped g rest :
  escaped g = true -> literal_body (g +:+ String quote rest) = Some g.
Proof. apply (literal_body_escaped_upto (String.length g)). lia. Qed.

Lemma literal_body_sound_upto n :
  forall s g,
    String.length s <= n -> literal_body s = Some g ->
    escaped g = true /\ exists rest, s = g +:+ String quote rest.
Proof.
  induction n as [|n IH]; intros s g Hlen Hs.
  - destruct s; [discriminate | simpl in Hlen; lia].
  - destruct s as [|c s]; [discriminate|]. simpl in Hs.
    destruct (Ascii.eqb c quote) eqn:Hq.
    + injection Hs as <-. apply Ascii.eqb_eq in Hq. subst c.
      split; [reflexivity|]. exists s. reflexivity.
    + destruct (Ascii.eqb c backslash) eqn:Hb.
      * destruct s as [|d s]; [discriminate|].
        destruct (Ascii.eqb d newline) eqn:Hd; [discriminate|].
        destruct (literal_body s) as [g'|] eqn:Hg'; [|discriminate].
        injection Hs as <-.
        destruct (IH s g') as [He (rest & ->)];
          [simpl in Hlen; lia | exact Hg' |].
        split; [|exists rest; reflexivity].
        simpl. rewrite Hq, Hb, Hd. exact He.
      * destruct (literal_body s) as [g'|] eqn:Hg'; [|discriminate].
        injection Hs as <-.
        destruct (IH s g') as [He (rest & ->)];
          [simpl in Hlen; lia | exact Hg' |].
        split; [|exists rest; reflexivity].
        simpl. rewrite Hq, Hb. exact He.
Qed.

Lemma finditer_from_sound s :
  forall skip g,
    In g (finditer_from skip s) ->
    escaped g = true /\
    exists before after, s = before +:+ String quote (g +:+ String quote after).
Proof.
  induction s as [|c s IH]; intros skip g Hin; [destruct Hin|].
  assert (Hrest : forall k, In g (finditer_from k s) ->
            escaped g = true /\
            exists before after,
              String c s = before +:+ String quote (g +:+ String quote after)).
  { intros k Hk. destruct (IH k g Hk) as [He (b & a & ->)].
    split; [exact He|]. exists (String c b), a. reflexivity. }
  simpl in Hin. destruct skip as [|k]; [|eapply Hrest; exact Hin].
  destruct (Ascii.eqb c quote) eqn:Hq; [|eapply Hrest; exact Hin].
  destruct (literal_body s) as [g0|] eqn:Hbody; [|eapply Hrest; exact Hin].
  destruct Hin as [<- | Hin]; [|eapply Hrest; exact Hin].
  apply Ascii.eqb_eq in Hq. subst c.
  destruct (literal_body_sound_upto _ _ _ (le_n _) Hbody) as [He (rest & ->)].
  split; [exact He|]. exists EmptyString, rest. reflexivity.
Qed.

(** X16: every match [string_regex.finditer] reports is a literal of the
    text: its group stands in the text between two quotes, holds no bare
    quote, and each backslash in it is followed by a character other than
    the newline. *)
Theorem finditer_sound (s g : string) :
  In g (finditer s) ->
  escaped g = true /\
  exists before after, s = before +:+ String quote (g +:+ String quote after).
Proof. apply finditer_from_sound. Qed.

Lemma finditer_from_skip_literal g :
  forall rest,
    finditer_from (S (String.length g)) (g +:+ String quote rest)
    = finditer_from 0 rest.
Proof. induction g as [|c g IH]; intros rest; [reflexivity | apply IH]. Qed.

Lemma finditer_from_quote_free before :
  forall s, quote_free before = true ->
            finditer_from 0 (before +:+ s) = finditer_from 0 s.
Proof.
  induction before as [|c b IH]; intros s Hb; [reflexivity|].
  simpl in Hb |- *. apply andb_true_iff in Hb as [Hc Hb].
  apply negb_true_iff in Hc. rewrite Hc. apply IH. exact Hb.
Qed.

Lemma finditer_literal_at before g rest :
  quote_free before = true -> escaped g = true ->
  finditer (before +:+ String quote (g +:+ String quote rest))
  = g :: finditer rest.
Proof.
  intros Hb Hg. unfold finditer. rewrite (finditer_from_quote_free _ _ Hb).
  cbn [finditer_from]. rewrite Ascii.eqb_refl.
  rewrite (literal_body_escaped _ _ Hg). f_equal.
  apply finditer_from_skip_literal.
Qed.

(** X17: a literal whose body holds no bare quote and no backslash before
    a newline, standing after a text without quotes, is the first match,
    with its body as the group, and the search goes on after its closing
    quote. *)
Theorem finditer_literal (before g rest : string) :
  quote_free before = true -> escaped g = true ->
  finditer (before +:+ String quote (g +:+ String quote rest))
  = g :: finditer rest.
Proof. apply finditer_literal_at. Qed.

Lemma str_contains_after needle a s :
  str_contains needle s = true -> str_contains needle (a +:+ s) = true.
Proof.
  intros H. induction a as [|c a IH]; [exact H|].
  simpl. rewrite IH. apply orb_true_r.
Qed.

(** X18: from a script that assigns to the marker, written as a literal, a
    payload written as the next literal, the scan of the script tags
    returns the payload as it stands between its quotes, whatever scripts
    without the marker come before and whatever scripts come after. *)
Theorem payload_recovered (scripts_before scripts_after : list string)
        (before between payload rest : string) :
  Forall no_marker scripts_before ->
  quote_free before = true -> quote_free between = true ->
  escaped payload = true ->
  find_encoded_data
    (scripts_before ++
     (before +:+ String quote (marker +:+ String quote
        (between +:+ String quote (payload +:+ String quote rest))))
     :: scripts_after)
  = Ok payload.
Proof.
  intros Hnone Hb Hm Hp. rewrite (find_encoded_data_skip _ _ Hnone).
  cbn [find_encoded_data].
  rewrite str_contains_after.
  2:{ change (String quote (marker +:+ ?x)) with (String quote EmptyString +:+ (marker +:+ x)).
      apply (str_contains_after marker (String quote EmptyString)).
      reflexivity. }
  rewrite (finditer_literal_at before marker _ Hb eq_refl).
  rewrite (finditer_literal_at between payload rest Hm Hp).
  reflexivity.
Qed.

Lemma leading_token_app a rest :
  space_free a = true -> leading_token (a +:+ String space rest) = a.
Proof.
  induction a as [|c a IH]; intros Ha; [reflexivity|].
  simpl in Ha |- *. apply andb_true_iff in Ha as [Hc Ha].
  apply negb_true_iff in Hc. rewrite Hc, IH; auto.
Qed.

Lemma leading_token_space_free a :
  space_free a = true -> leading_token a = a.
Proof.
  induction a as [|c a IH]; intros Ha; [reflexivity|].
  simpl in Ha |- *. apply andb_true_iff in Ha as [Hc Ha].
  apply negb_true_iff in Hc. rewrite Hc, IH; auto.
Qed.

(** X19: the folder's name is the title up to its first space: a title
    made of a non-empty text without spaces, alone or followed by a space
    and anything, gives that text, so a name with a space in it is cut at
    the space. *)
Theorem name_is_first_token (a rest : string) :
  a <> EmptyString -> space_free a = true ->
  folder_name_match (a +:+ String space rest) = Some a /\
  folder_name_match a = Some a.
Proof.
  intros Hne Ha. unfold folder_name_match.
  rewrite (leading_token_app _ _ Ha), (leading_token_space_free _ Ha).
  destruct a; [contradiction | split; reflexivity].
Qed.

(** X20: the title gives no name exactly when it is empty or starts with
    a space; a name that is given is not empty and holds no space. *)
Theorem no_name_iff (title : string) :
  (folder_name_match title = None <->
   title = EmptyString \/ exists rest, title = String space rest) /\
  (forall token, folder_name_match title = Some token ->
                 token <> EmptyString /\ space_free token = true).
Proof.
  unfold folder_name_match. split.
  - destruct title as [|c rest]; simpl.
    + split; [intros _; left; reflexivity | reflexivity].
    + destruct (Ascii.eqb c space) eqn:Hc.
      * apply Ascii.eqb_eq in Hc. subst c.
        split; [intros _; right; exists rest; reflexivity | reflexivity].
      * split; [discriminate|]. intros [H | [r H]]; [discriminate|].
        injection H as -> _. rewrite Ascii.eqb_refl in Hc. discriminate.
  - intros token. destruct (leading_token title) as [|c t] eqn:Ht; [discriminate|].
    intros [= <-]. split; [discriminate|].
    clear -Ht. revert c t Ht. induction title as [|d title IH]; intros c t Ht.
    + discriminate.
    + simpl in Ht. destruct (Ascii.eqb d space) eqn:Hd; [discriminate|].
      injection Ht as -> Ht. simpl. rewrite Hd. simpl.
      destruct t as [|c' t']; [reflexivity|]. eapply IH. exact Ht.
Qed.

End Scanners.

(** ** More on directory creation *)

Section MoreDirectoryCreation.

Lemma os_mkdir_keeps (p : Path) (fs fs' : FS) (q : Path) (n : node) :
  os_mkdir p fs = Ok fs' -> fs !! q = Some n -> fs' !! q = Some n.
Proof.
  unfold os_mkdir. destruct p as [|name dir].
  - simpl. discriminate.
  - simpl. destruct (stat fs dir) as [[|]| |]; try discriminate.
    destruct (fs !! (name :: dir)) as [x|] eqn:Hp; [discriminate|].
    intros [= <-] Hq. rewrite lookup_insert_ne; [exact Hq|].
    intros <-. congruence.
Qed.

Lemma mkdir_leaf_keeps (exist_ok : bool) (p : Path) (fs : FS) (q : Path) (n : node) :
  fs !! q = Some n -> snd (mkdir_leaf exist_ok p fs) !! q = Some n.
Proof.
  intros Hq. unfold mkdir_leaf.
  destruct (os_mkdir p fs) as [fs'|e] eqn:Hos.
  - simpl. eapply os_mkdir_keeps; eassumption.
  - destruct e; try (destruct (exist_ok && is_dir fs p)); exact Hq.
Qed.

Lemma Path_mkdir_keeps (p : Path) :
  forall (fs : FS) (q : Path) (n : node),
    fs !! q = Some n -> snd (Path_mkdir p fs) !! q = Some n.
Proof.
  induction p as [|name dir IH]; intros fs q n Hq.
  - simpl. exact Hq.
  - cbn [Path_mkdir].
    destruct (os_mkdir (name :: dir) fs) as [fs'|e] eqn:Hos.
    + simpl. eapply os_mkdir_keeps; eassumption.
    + destruct e; try (destruct (is_dir fs (name :: dir)); exact Hq).
      pose proof (IH fs q n Hq) as Hdir.
      destruct (Path_mkdir dir fs) as [[u|e1] fs1]; simpl in Hdir.
      * apply mkdir_leaf_keeps. exact Hdir.
      * exact Hdir.
Qed.

(** X21: a directory creation, whether it succeeds or raises, removes no
    entry of the disk and changes none: what was a file or a directory at
    a path before is the same after. *)
Theorem mkdir_keeps_entries (p : Path) (fs : FS) (q : Path) (n : node) :
  fs !! q = Some n -> snd (Path_mkdir p fs) !! q = Some n.
Proof. apply Path_mkdir_keeps. Qed.

Lemma is_dir_parent (fs : FS) (name : string) (dir : Path) :
  is_dir fs (name :: dir) = true -> is_dir fs dir = true.
Proof.
  unfold is_dir. simpl. destruct (stat fs dir) as [[|]| |]; try discriminate.
  reflexivity.
Qed.

Lemma is_dir_ancestors (fs : FS) (p : Path) :
  is_dir fs p = true -> forall k, is_dir fs (drop k p) = true.
Proof.
  induction p as [|name dir IH]; intros Hp k.
  - rewrite drop_nil. exact Hp.
  - destruct k as [|k]; [exact Hp|]. simpl. apply IH.
    eapply is_dir_parent. exact Hp.
Qed.

(** X22: after a directory creation that succeeds, the path and every
    parent of it are directories. *)
Theorem mkdir_makes_parents (p : Path) (fs fs' : FS) (u : unit) (k : nat) :
  Path_mkdir p fs = (Ok u, fs') -> is_dir fs' (drop k p) = true.
Proof.
  intros H. apply is_dir_ancestors. eapply Path_mkdir_is_dir. exact H.
Qed.

End MoreDirectoryCreation.

(** ** Edges of the parse and of the traversal *)

Section Edges.
Context `{P : Platform}.


Lemma for_contents_acc recurse previous_path files :
  forall directory_structure,
    for_contents recurse previous_path directory_structure files
    = (let? r := for_contents recurse previous_path [] files in
       Ok (directory_structure ++ r)).
Proof.
  induction files as [|file files IH]; intros acc.
  - simpl. rewrite app_nil_r. reflexivity.
  - cbn [for_contents].
    destruct (getkey file "file_type") as [file_type|e]; [|reflexivity].
    cbn [ResultMonad.bind]. destruct (eq_str file_type folder_type).
    + destruct (getkey file "file_name") as [name|e]; [|reflexivity].
      cbn [ResultMonad.bind].
      destruct (path_div previous_path name) as [path|e]; [|reflexivity].
      cbn [ResultMonad.bind].
      destruct (recurse file path) as [inner|e]; [|reflexivity].
      cbn [ResultMonad.bind].
      rewrite (IH ((acc ++ [(PNone, path)]) ++ inner)).
      rewrite (IH (([] ++ [(PNone, path)]) ++ inner)).
      destruct (for_contents recurse previous_path [] files) as [r|e];
        [|reflexivity].
      simpl. rewrite <- !app_assoc. reflexivity.
    + destruct (getkey file "file_contents") as [contents|e]; [|reflexivity].
      cbn [ResultMonad.bind]. destruct (is_None contents).
      * destruct (getkey file "file_id") as [file_id|e]; [|reflexivity].
        cbn [ResultMonad.bind].
        destruct (getkey file "file_name") as [name|e]; [|reflexivity].
        cbn [ResultMonad.bind].
        destruct (path_div previous_path name) as [path|e]; [|reflexivity].
        cbn [ResultMonad.bind].
        rewrite (IH (acc ++ [(file_id, path)])).
        rewrite (IH ([] ++ [(file_id, path)])).
        destruct (for_contents recurse previous_path [] files) as [r|e];
          [|reflexivity].
        simpl. rewrite <- !app_assoc. reflexivity.
      * apply IH.
Qed.

Lemma for_contents_app recurse previous_path files1 :
  forall files2 directory_structure,
    for_contents recurse previous_path directory_structure (files1 ++ files2)
    = (let? a := for_contents recurse previous_path directory_structure files1 in
       for_contents recurse previous_path a files2).
Proof.
  induction files1 as [|file files1 IH]; intros files2 acc; [reflexivity|].
  cbn [app for_contents].
  destruct (getkey file "file_type") as [file_type|e]; [|reflexivity].
  cbn [ResultMonad.bind]. destruct (eq_str file_type folder_type).
  - destruct (getkey file "file_name") as [name|e]; [|reflexivity].
    cbn [ResultMonad.bind].
    destruct (path_div previous_path name) as [path|e]; [|reflexivity].
    cbn [ResultMonad.bind].
    destruct (recurse file path) as [inner|e]; [|reflexivity].
    cbn [ResultMonad.bind]. apply IH.
  - destruct (getkey file "file_contents") as [contents|e]; [|reflexivity].
    cbn [ResultMonad.bind]. destruct (is_None contents).
    + destruct (getkey file "file_id") as [file_id|e]; [|reflexivity].
      cbn [ResultMonad.bind].
      destruct (getkey file "file_name") as [name|e]; [|reflexivity].
      cbn [ResultMonad.bind].
      destruct (path_div previous_path name) as [path|e]; [|reflexivity].
      cbn [ResultMonad.bind]. apply IH.
    + apply IH.
Qed.

(** X24: the directory structure of a listing is the directory structure
    of its first entries followed by that of the rest, an error in the
    first part coming first: the entries are handled from left to right,
    each on its own, whatever they are. *)
Theorem directory_structure_app depth file_name file_id file_type
        (files1 files2 : list pyobj) previous_path :
  get_directory_structure (S depth)
    (entry file_name file_id file_type (PList (files1 ++ files2))) previous_path
  = (let? a := get_directory_structure (S depth)
                 (entry file_name file_id file_type (PList files1)) previous_path in
     let? b := get_directory_structure (S depth)
                 (entry file_name file_id file_type (PList files2)) previous_path in
     Ok (a ++ b)).
Proof.
  cbn [get_directory_structure]. cbn [entry getkey dict_get].
  cbn -[for_contents]. rewrite for_contents_app.
  destruct (for_contents (get_directory_structure depth) previous_path [] files1)
    as [a|e]; [|reflexivity].
  cbn [ResultMonad.bind]. apply for_contents_acc.
Qed.

End Edges.

(** ** The further properties on the synthetic site *)

Section FurtherOnTheFixture.
Import Fixture TreeFixture.

Lemma quiet_changes_only_stdout_witness :
  let out1 := get_folder_list 1000 root_url true false w0 in
  let out2 := get_folder_list 1000 root_url false false w0 in
  fst out1 = fst out2 /\ same_but_stdout (snd out1) (snd out2).
Proof.
  apply (quiet_changes_only_stdout (P := platform) 1000 root_url true false false
                                   w0 w0).
  repeat split.
Defined.

Lemma listing_follows_rows_witness :
  exists children,
    root_tree = entry (PStr "root") (PStr (str_from 39 root_url)) (PStr folder_type)
                      (PList children) /\
    Forall2 row_entry root_rows children.
Proof.
  apply (listing_follows_rows (P := platform) 999 root_url true false w0 "root"
           root_rows ["NID"] root_tree
           (snd (get_folder_list 1000 root_url true false w0))).
  - eexists. split; [reflexivity|]. split; reflexivity.
  - vm_compute. reflexivity.
Defined.

Lemma served_unparseable_raises_witness :
  get_folder_list 1 short_url true false w0
  = (Raise (IndexError "list index out of range"),
     fetched short_url false ["NID"] w0).
Proof.
  apply (served_unparseable_raises (P := platform) 0 short_url true false w0
           (site short_url) ["NID"]).
  - reflexivity.
  - reflexivity.
  - reflexivity.
Defined.

Lemma failed_listing_downloads_nothing_witness :
  let w1 := printed true [PStr "Retrieving folder list"] w0 in
  let listing := get_folder_list 1000 broken_url true false w1 in
  download_folder 1000 broken_url None true None None true w0
    = (Ok false, snd listing) /\
  disk (snd listing) = disk w0.
Proof.
  apply (failed_listing_downloads_nothing (P := platform) 1000 broken_url None
           true None None true w0 PNone).
  vm_compute. reflexivity.
Defined.

Lemma true_return_all_performed_witness :
  exists directory_structure w2 evs,
    plan_of 1000 root_url None true w0 = (Ok (true, directory_structure), w2) /\
    Forall2 (performs true None None true) directory_structure evs /\
    trace (snd (download_folder 1000 root_url None true None None true w0))
    = trace w2 ++ evs.
Proof.
  apply (true_return_all_performed (P := platform) 1000 root_url None true None
           None true w0
           (snd (download_folder (P := platform) 1000 root_url None true None None
                                 true w0))).
  vm_compute. reflexivity.
Defined.

Lemma raising_round_aborts_witness :
  for_files true None None true true root_plan blocked
  = (Raise (FileExistsError ["sub"; "root"; "work"]),
     snd (download_entry true None None true true
                         (PNone, ["sub"; "root"; "work"]) blocked)).
Proof.
  apply (raising_round_aborts (P := platform) true None None true []
           (PNone, ["sub"; "root"; "work"])
           [(PStr "idA", ["fileA"; "sub"; "root"; "work"]);
            (PStr "idB", ["fileB"; "sub"; "root"; "work"]);
            (PStr "idC", ["fileC"; "root"; "work"])]
           blocked true blocked).
  - reflexivity.
  - vm_compute. reflexivity.
Defined.

Lemma directory_structure_is_preorder_witness :
  get_directory_structure 2 (to_dict root_node) ["root"; "work"]
  = flatten_all ["root"; "work"] root_children.
Proof.
  apply (directory_structure_is_preorder 2 "root" "idRoot"
           root_children ["root"; "work"]).
  - reflexivity.
  - simpl. lia.
Defined.

Lemma listing_is_a_tree_witness :
  exists file_name children,
    root_tree = to_dict (TFolder file_name (str_from 39 root_url) children) /\
    height (TFolder file_name (str_from 39 root_url) children) <= 1000 /\
    typed (TFolder file_name (str_from 39 root_url) children) = true.
Proof.
  apply (listing_is_a_tree (P := platform) 1000 root_url true false w0 root_tree
           (snd (get_folder_list 1000 root_url true false w0))).
  vm_compute. reflexivity.
Defined.

Lemma planning_follows_listing_witness :
  exists file_name children,
    root_tree = to_dict (TFolder file_name (str_from 39 root_url) children) /\
    forall previous_path,
      get_directory_structure 1000 root_tree previous_path
      = flatten_all previous_path children.
Proof.
  apply (planning_follows_listing (P := platform) 1000 root_url true false w0
           root_tree (snd (get_folder_list 1000 root_url true false w0))).
  vm_compute. reflexivity.
Defined.

Lemma one_entry_per_descendant_witness :
  exists plan,
    get_directory_structure 2 (to_dict root_node) ["root"; "work"] = Ok plan /\
    length plan = nodes_of_all root_children.
Proof.
  apply (one_entry_per_descendant 2 "root" "idRoot" root_children
           ["root"; "work"]).
  - reflexivity.
  - reflexivity.
  - simpl. lia.
Defined.

Lemma finditer_sound_witness :
  escaped "b" = true /\
  exists before after,
    "x = 'a' + 'b';" = before +:+ String quote ("b" +:+ String quote after).
Proof.
  apply (finditer_sound "x = 'a' + 'b';" "b").
  simpl. right. left. reflexivity.
Defined.

Lemma finditer_literal_witness :
  finditer ("var x = " +:+ String quote ("a\'b" +:+ String quote "; 'c'"))
  = "a\'b" :: finditer "; 'c'".
Proof.
  apply (finditer_literal "var x = " "a\'b" "; 'c'").
  - reflexivity.
  - reflexivity.
Defined.

Lemma payload_recovered_witness :
  find_encoded_data
    (["var a = 'x';"] ++
     ("window[" +:+ String quote (marker +:+ String quote
        ("] = " +:+ String quote ("[[1,2]]" +:+ String quote ";"))))
     :: ["var b;"])
  = Ok "[[1,2]]".
Proof.
  apply (payload_recovered ["var a = 'x';"] ["var b;"] "window[" "] = "
                           "[[1,2]]" ";").
  - constructor; [reflexivity | constructor].
  - reflexivity.
  - reflexivity.
  - reflexivity.
Defined.

Lemma name_is_first_token_witness :
  folder_name_match ("My" +:+ String space "Folder - Google Drive") = Some "My" /\
  folder_name_match "My" = Some "My".
Proof.
  apply (name_is_first_token "My" "Folder - Google Drive").
  - discriminate.
  - reflexivity.
Defined.

Lemma mkdir_keeps_entries_witness :
  snd (Path_mkdir ["sub"; "root"; "work"] (disk blocked))
    !! ["sub"; "root"; "work"] = Some (File "data").
Proof.
  apply (mkdir_keeps_entries ["sub"; "root"; "work"] (disk blocked)
                             ["sub"; "root"; "work"] (File "data")).
  vm_compute. reflexivity.
Defined.

Lemma mkdir_makes_parents_witness :
  is_dir (snd (Path_mkdir ["sub"; "root"; "work"] ∅))
         (drop 1 ["sub"; "root"; "work"]) = true.
Proof.
  apply (mkdir_makes_parents ["sub"; "root"; "work"] ∅
           (snd (Path_mkdir ["sub"; "root"; "work"] ∅)) tt 1).
  vm_compute. reflexivity.
Defined.


End FurtherOnTheFixture.

(** ** A file entry without an id *)

Section NullId.
Context `{P : Platform}.

(** X25: a file entry whose id is [None] gets the entry [(None, path)],
    which is what a folder gets, and the last loop of [download_folder]
    takes it for a folder: it creates a directory at the file's path and
    downloads nothing. *)
Theorem file_without_id_becomes_directory depth file_name file_id file_type
        (name : string) (type : pyobj) (previous_path : Path)
        quiet proxy speed use_cookies w :
  eq_str type folder_type = false ->
  get_directory_structure (S depth)
    (entry file_name file_id file_type (PList [entry (PStr name) PNone type PNone]))
    previous_path
  = Ok [(PNone, name :: previous_path)] /\
  trace (snd (for_files quiet proxy speed use_cookies true
                        [(PNone, name :: previous_path)] w))
  = trace w ++ [EvMkdir (name :: previous_path)].
Proof.
  intros Htype. split.
  - cbn -[eq_str]. rewrite Htype. reflexivity.
  - rewrite for_files_cons. unfold download_entry. cbn [is_None].
    unfold bind, mkdir, ret.
    destruct (Path_mkdir (name :: previous_path) (disk w)) as [[u|e] fs1].
    + simpl. unfold bind, when, ret, print. destruct quiet; reflexivity.
    + reflexivity.
Qed.

End NullId.

Section NullIdOnTheFixture.
Import Fixture.

Lemma file_without_id_becomes_directory_witness :
  get_directory_structure 1
    (entry (PStr "root") (PStr "idRoot") (PStr folder_type)
           (PList [entry (PStr "fileC") PNone (PStr "text/plain") PNone]))
    ["root"; "work"]
  = Ok [(PNone, ["fileC"; "root"; "work"])] /\
  trace (snd (for_files true None None true true
                        [(PNone, ["fileC"; "root"; "work"])] w0))
  = trace w0 ++ [EvMkdir ["fileC"; "root"; "work"]].
Proof.
  apply (file_without_id_becomes_directory (P := platform) 0 (PStr "root")
           (PStr "idRoot") (PStr folder_type) "fileC" (PStr "text/plain")
           ["root"; "work"] true None None true w0).
  reflexivity.
Defined.

End NullIdOnTheFixture.
